(** * spider-query-builder: the parameter value objects and the query builder

    A shallow embedding of [src/spdrParam.ts] (the parameter classes and the
    operator enumerations) and of [src/spdrQueryBuilder.ts] (the builder),
    followed by the properties of the specification that were checked
    against them.

    JavaScript strings are modelled by [string]; the only operations the
    program uses on them are concatenation, [length] and [slice], which do
    not depend on the alphabet.  A [number] is a binary64 floating-point
    value, [float]; an absent optional argument is [None]. *)

From Stdlib Require Import String Ascii List ZArith Lia Bool DecimalString.
From Stdlib Require Import Floats.

(** A decimal literal stands, as in JavaScript, for the closest binary64
    value. *)
Set Warnings "-inexact-float".
Import ListNotations.
Open Scope string_scope.

(** ** The JavaScript primitives the program relies on *)

Module JS.

(** The first [n] characters of [s] (all of [s] when it is shorter). *)
Fixpoint take (n : nat) (s : string) : string :=
  match n, s with
  | S n', String c s' => String c (take n' s')
  | _, _ => EmptyString
  end.

(** [s] without its first [n] characters (empty when [s] is shorter). *)
Fixpoint drop (n : nat) (s : string) : string :=
  match n, s with
  | S n', String _ s' => drop n' s'
  | _, _ => s
  end.

(** [String.prototype.slice(start, end)] for non-negative indices, the
    only ones the program passes; [end_ = None] is the one-argument call. *)
Definition slice (s : string) (start : nat) (end_ : option nat) : string :=
  match end_ with
  | None => drop start s
  | Some e => take (e - start) (drop start s)
  end.

(** [Boolean.prototype.toString]. *)
Definition Boolean_toString (b : bool) : string :=
  if b then "true" else "false".

(** [Array.prototype.forEach((value, i) => ...)] threading the state the
    callback mutates; [i] is the index of the first element of [l]. *)
Fixpoint forEach {A S : Type} (f : A -> Z -> S -> S)
                 (l : list A) (i : Z) (s : S) : S :=
  match l with
  | [] => s
  | x :: t => forEach f t (i + 1)%Z (f x i s)
  end.

(** [a[i]]: [undefined] ([None]) outside the array. *)
Definition at_index {A : Type} (a : list A) (i : Z) : option A :=
  if (i <? 0)%Z then None else nth_error a (Z.to_nat i).

(** What a call returns: a value, or a thrown error named by its class. *)
Inductive completion (A : Type) : Type :=
| Normal (a : A)
| Throw (error : string).
Arguments Normal {A} a.
Arguments Throw {A} error.

(** *** Dates

    A [Date] holds a time value: a number of milliseconds since
    1970-01-01T00:00:00Z, or NaN (an invalid date).  The functions below
    are those of the ECMAScript specification (Day, TimeWithinDay,
    DayFromYear, YearFromTime, MonthFromTime, DateFromTime, ...). *)

Inductive Date : Type :=
| InvalidDate
| TimeValue (t : Z).

Local Open Scope Z_scope.

Definition msPerDay : Z := 86400000.

Definition Day (t : Z) : Z := t / msPerDay.
Definition TimeWithinDay (t : Z) : Z := t mod msPerDay.

Definition DayFromYear (y : Z) : Z :=
  365 * (y - 1970) + (y - 1969) / 4 - (y - 1901) / 100 + (y - 1601) / 400.

Definition DaysInYear (y : Z) : Z :=
  if negb (y mod 4 =? 0) then 365
  else if negb (y mod 100 =? 0) then 366
  else if negb (y mod 400 =? 0) then 365
  else 366.

(** The largest [y] with [DayFromYear y <= Day t]: the estimate from the
    mean length of a year is off by at most one (see [YearFromTime_spec]). *)
Definition YearFromTime (t : Z) : Z :=
  let y := 1970 + (400 * Day t) / 146097 in
  if DayFromYear (y + 1) <=? Day t then y + 1
  else if Day t <? DayFromYear y then y - 1
  else y.

Definition InLeapYear (t : Z) : Z :=
  if DaysInYear (YearFromTime t) =? 366 then 1 else 0.

Definition DayWithinYear (t : Z) : Z :=
  Day t - DayFromYear (YearFromTime t).

(** Months are numbered from 0 (January) to 11 (December). *)
Definition MonthFromTime (t : Z) : Z :=
  let d := DayWithinYear t in
  let l := InLeapYear t in
  if d <? 31 then 0
  else if d <? 59 + l then 1
  else if d <? 90 + l then 2
  else if d <? 120 + l then 3
  else if d <? 151 + l then 4
  else if d <? 181 + l then 5
  else if d <? 212 + l then 6
  else if d <? 243 + l then 7
  else if d <? 273 + l then 8
  else if d <? 304 + l then 9
  else if d <? 334 + l then 10
  else 11.

(** The day of the month, from 1. *)
Definition DateFromTime (t : Z) : Z :=
  let d := DayWithinYear t in
  let l := InLeapYear t in
  match MonthFromTime t with
  | 0 => d + 1
  | 1 => d - 30
  | 2 => d - 58 - l
  | 3 => d - 89 - l
  | 4 => d - 119 - l
  | 5 => d - 150 - l
  | 6 => d - 180 - l
  | 7 => d - 211 - l
  | 8 => d - 242 - l
  | 9 => d - 272 - l
  | 10 => d - 303 - l
  | _ => d - 333 - l
  end.

Definition HourFromTime (t : Z) : Z := (t / 3600000) mod 24.
Definition MinFromTime (t : Z) : Z := (t / 60000) mod 60.
Definition SecFromTime (t : Z) : Z := (t / 1000) mod 60.
Definition msFromTime (t : Z) : Z := t mod 1000.

(** The decimal digit [z mod 10] as a one-character string. *)
Definition digit (z : Z) : string :=
  String (ascii_of_nat (48 + Z.to_nat (z mod 10))) EmptyString.

Definition pad2 (z : Z) : string := digit (z / 10) ++ digit z.
Definition pad3 (z : Z) : string := digit (z / 100) ++ pad2 z.
Definition pad4 (z : Z) : string := digit (z / 1000) ++ pad3 z.
Definition pad6 (z : Z) : string :=
  digit (z / 100000) ++ digit (z / 10000) ++ pad4 z.

(** The year of the Date Time String Format: four digits from 0 to 9999,
    otherwise the expanded form, a sign and six digits. *)
Definition isoYear (y : Z) : string :=
  if (0 <=? y) && (y <=? 9999) then pad4 y
  else if y <? 0 then "-" ++ pad6 (- y)
  else "+" ++ pad6 y.

(** [Date.prototype.toISOString]: a RangeError on an invalid date. *)
Definition toISOString (d : Date) : completion string :=
  match d with
  | InvalidDate => Throw "RangeError"
  | TimeValue t =>
      Normal (isoYear (YearFromTime t) ++ "-" ++ pad2 (MonthFromTime t + 1)
              ++ "-" ++ pad2 (DateFromTime t)
              ++ "T" ++ pad2 (HourFromTime t) ++ ":" ++ pad2 (MinFromTime t)
              ++ ":" ++ pad2 (SecFromTime t) ++ "." ++ pad3 (msFromTime t)
              ++ "Z")
  end.

(** *** Numbers

    [Number.prototype.toString()] as the ECMAScript specification defines
    it for radix 10: [NaN], [0] for both zeros, [Infinity], and for a
    finite [x > 0] the integers [n], [k] and [s] with [k >= 1],
    [10 ^ (k - 1) <= s < 10 ^ k], [s * 10 ^ (n - k)] a real number that
    rounds to [x], and [k] as small as possible ([s] the closest to [x]
    when several fit); then the digits of [s] are laid out according to
    [n].  A positive finite number is [m * 2 ^ e] with [m < 2 ^ 53]. *)

(** [b ^ n] for [n >= 0], and 1 for a negative [n]. *)
Definition power (b n : Z) : Z := b ^ Z.max n 0.

(** [10 ^ n <= m * 2 ^ e]. *)
Definition reaches (m e n : Z) : bool :=
  power 10 n * power 2 (- e) <=? m * power 2 e * power 10 (- n).

(** The [n] with [10 ^ (n - 1) <= m * 2 ^ e < 10 ^ n], looked for around
    the estimate the binary logarithm gives. *)
Definition decimal_exponent (m e : Z) : Z :=
  let est := (Z.log2 m + e) * 30103 / 100000 in
  if reaches m e (est + 3) then est + 4
  else if reaches m e (est + 2) then est + 3
  else if reaches m e (est + 1) then est + 2
  else if reaches m e est then est + 1
  else if reaches m e (est - 1) then est
  else est - 1.

(** The multiple [c * 10 ^ (n - k)] closest to [x = m * 2 ^ e] among those
    that round to [x], if there is one: [c] is one of the two integers
    around [x / 10 ^ (n - k)].  The reals that round to [x] are those
    between the midpoints with its two neighbours, the midpoints included
    when [m] is even (ties go to the even significand); the neighbour below
    a power of two is at half the distance. *)
Definition shortest_at (m e n k : Z) : option Z :=
  let q := n - k in
  let f := e - 2 in
  let a := power 2 f * power 10 (- q) in
  let d := power 2 (- f) * power 10 q in
  let x := 4 * m * a in
  let lo :=
    (if (m =? 2 ^ 52) && (-1074 <? e) then 4 * m - 1 else 4 * m - 2) * a in
  let hi := (4 * m + 2) * a in
  let inside c :=
    if Z.even m then (lo <=? c * d) && (c * d <=? hi)
    else (lo <? c * d) && (c * d <? hi) in
  let c1 := x / d in
  let c2 := c1 + 1 in
  match inside c1, inside c2 with
  | false, false => None
  | true, false => Some c1
  | false, true => Some c2
  | true, true =>
      let d1 := x - c1 * d in
      let d2 := c2 * d - x in
      if d1 <? d2 then Some c1
      else if d2 <? d1 then Some c2
      else if Z.even c1 then Some c1 else Some c2
  end.

(** [(s, k, n)] for [x = m * 2 ^ e], trying [k], [k + 1], ...; seventeen
    digits always suffice for a binary64 value.  A candidate [10 ^ k] is
    the one digit 1 at the next power of ten. *)
Fixpoint shortest (fuel : nat) (m e n k : Z) : Z * Z * Z :=
  match shortest_at m e n k with
  | Some c => if c =? 10 ^ k then (10 ^ (k - 1), k, n + 1) else (c, k, n)
  | None =>
      match fuel with
      | O => (4 * m * power 2 (e - 2) * power 10 (k - n)
              / (power 2 (2 - e) * power 10 (n - k)), k, n)
      | S fuel' => shortest fuel' m e n (k + 1)
      end
  end.

(** The decimal digits of a non-negative integer. *)
Definition decimal (z : Z) : string := NilZero.string_of_int (Z.to_int z).

Fixpoint zeros (n : nat) : string :=
  match n with
  | O => ""
  | S n' => String "0" (zeros n')
  end.

(** The layout of the [k] digits of [s] for the exponent [n]. *)
Definition format (s k n : Z) : string :=
  let ds := decimal s in
  if (k <=? n) && (n <=? 21) then ds ++ zeros (Z.to_nat (n - k))
  else if (0 <? n) && (n <=? 21)
       then take (Z.to_nat n) ds ++ "." ++ drop (Z.to_nat n) ds
  else if (-6 <? n) && (n <=? 0) then "0." ++ zeros (Z.to_nat (- n)) ++ ds
  else
    let ex := (if n - 1 <? 0 then "-" else "+") ++ decimal (Z.abs (n - 1)) in
    if k =? 1 then ds ++ "e" ++ ex
    else take 1 ds ++ "." ++ drop 1 ds ++ "e" ++ ex.

(** [Number.prototype.toString]. *)
Definition Number_toString (x : float) : string :=
  match Prim2SF x with
  | S754_nan => "NaN"
  | S754_zero _ => "0"
  | S754_infinity s => if s then "-Infinity" else "Infinity"
  | S754_finite s m e =>
      let '(c, k, n) :=
        shortest 16 (Zpos m) e (decimal_exponent (Zpos m) e) 1 in
      (if s then "-" else "") ++ format c k n
  end.

(** [!!x] for an optional number: [undefined], the two zeros and [NaN] are
    falsy, every other number is truthy. *)
Definition truthy (x : option float) : bool :=
  match x with
  | None => false
  | Some x =>
      match classify x with
      | PZero | NZero | NaN => false
      | _ => true
      end
  end.

End JS.

Import JS.

(** ** [spdrParam.ts]: operators and parameter value objects *)

Module SpdrParam.

(** Base operators. *)
Inductive Operator : Type := exists_ | equals | sort.

(** Sort values. *)
Inductive OrderOperator : Type := asc | desc.

(** Range and comparison operators. *)
Inductive RangeOperator : Type := lt | lte | gt | gte | between.

(** Date comparison operators. *)
Inductive DateOperator : Type :=
  after | before | strictlyAfter | strictlyBefore.

(** Pagination properties. *)
Inductive PageOperator : Type := pagination | page | itemsPerPage.

(** The string each member of a string enum stands for. *)
Definition Operator_str (o : Operator) : string :=
  match o with
  | exists_ => "exists"
  | equals => "="
  | sort => "order"
  end.

Definition OrderOperator_str (o : OrderOperator) : string :=
  match o with asc => "asc" | desc => "desc" end.

Definition RangeOperator_str (o : RangeOperator) : string :=
  match o with
  | lt => "lt" | lte => "lte" | gt => "gt" | gte => "gte"
  | between => "between"
  end.

Definition DateOperator_str (o : DateOperator) : string :=
  match o with
  | after => "after"
  | before => "before"
  | strictlyAfter => "strictly_after"
  | strictlyBefore => "strictly_before"
  end.

Definition PageOperator_str (o : PageOperator) : string :=
  match o with
  | pagination => "pagination"
  | page => "page"
  | itemsPerPage => "itemsPerPage"
  end.

(** [operator === RangeOperator.between]. *)
Definition is_between (o : RangeOperator) : bool :=
  match o with between => true | _ => false end.

(** [Operator | RangeOperator | DateOperator]. *)
Inductive AnyOperator : Type :=
| OfOperator (o : Operator)
| OfRange (o : RangeOperator)
| OfDate (o : DateOperator).

Definition AnyOperator_str (o : AnyOperator) : string :=
  match o with
  | OfOperator o => Operator_str o
  | OfRange o => RangeOperator_str o
  | OfDate o => DateOperator_str o
  end.

(** The values the classes of this file store in [value: any]. *)
Inductive any : Type :=
| Bool (b : bool)
| Number (x : float)
| Strings (l : list string)
| DateValue (d : Date)
| Order (o : OrderOperator).

(** [SpdrParamInterface], which the abstract class [SpdrParam] implements
    with one private field per member. *)
Record SpdrParamInterface : Type := mkParam {
  query : string;
  property : string;
  value : any;
  operator : AnyOperator
}.

(** The base constructor: [_query] starts as the empty string. *)
Definition super (property : string) (operator : AnyOperator) (value : any)
  : SpdrParamInterface :=
  mkParam "" property value operator.

(** The setter [set query(value)]. *)
Definition set_query (q : string) (p : SpdrParamInterface)
  : SpdrParamInterface :=
  mkParam q (property p) (value p) (operator p).

Definition SpdrExists (property : string) (value : bool)
  : SpdrParamInterface :=
  let this := super property (OfOperator exists_) (Bool value) in
  set_query (AnyOperator_str (operator this) ++ "[" ++ property ++ "]="
             ++ Boolean_toString value) this.

(** The callback of [values.forEach] in [SpdrSearch]. *)
Definition SpdrSearch_each (property : string) (values : list string)
           (operand : string) (value : string) (i : Z)
           (this : SpdrParamInterface) : SpdrParamInterface :=
  let str := property ++ "[]" ++ AnyOperator_str (operator this)
             ++ value ++ operand in
  let str := if (i =? Z.of_nat (List.length values) - 1)%Z
             then property ++ "[]" ++ AnyOperator_str (operator this)
                  ++ value
             else str in
  set_query (query this ++ str) this.

(** [operand = None] is the call without the third argument. *)
Definition SpdrSearch (property : string) (values : list string)
           (operand : option string) : SpdrParamInterface :=
  let operand := match operand with Some o => o | None => "&" end in
  let this := super property (OfOperator equals) (Strings values) in
  let this := set_query "" this in
  match values with
  | [v0] =>
      set_query (property ++ AnyOperator_str (operator this) ++ v0) this
  | _ => forEach (SpdrSearch_each property values operand) values 0%Z this
  end.

(** [toISOString] may throw, and so may the constructor. *)
Definition SpdrDate (property : string) (operator : DateOperator)
           (value : Date) : completion SpdrParamInterface :=
  let this := super property (OfDate operator) (DateValue value) in
  match toISOString value with
  | Throw e => Throw e
  | Normal iso =>
      Normal (set_query (property ++ "[" ++ DateOperator_str operator
                         ++ "]=" ++ slice iso 0 (Some 10)) this)
  end.

Definition SpdrRange (property : string) (operator : RangeOperator)
           (value : float) (secondValue : option float)
  : SpdrParamInterface :=
  let this := super property (OfRange operator) (Number value) in
  set_query
    (match truthy secondValue && is_between operator, secondValue with
     | true, Some second =>
         property ++ "[" ++ RangeOperator_str operator ++ "]="
         ++ Number_toString value ++ ".." ++ Number_toString second
     | _, _ =>
         property ++ "[" ++ RangeOperator_str operator ++ "]="
         ++ Number_toString value
     end) this.

Definition SpdrOrder (property : string) (value : OrderOperator)
  : SpdrParamInterface :=
  let this := super property (OfOperator sort) (Order value) in
  set_query (AnyOperator_str (operator this) ++ "[" ++ property ++ "]="
             ++ OrderOperator_str value) this.

(** In the three pagination classes an absent argument takes its default. *)
Definition SpdrPagination (value : option bool) (property : option string)
  : SpdrParamInterface :=
  let value := match value with Some v => v | None => true end in
  let property :=
    match property with
    | Some p => p
    | None => PageOperator_str pagination
    end in
  let this := super property (OfOperator equals) (Bool value) in
  set_query (property ++ AnyOperator_str (operator this)
             ++ Boolean_toString value) this.

Definition SpdrPageIdx (value : float) (property : option string)
  : SpdrParamInterface :=
  let property :=
    match property with Some p => p | None => PageOperator_str page end in
  let this := super property (OfOperator equals) (Number value) in
  set_query (property ++ AnyOperator_str (operator this)
             ++ Number_toString value) this.

Definition SpdrPageSize (value : float) (property : option string)
  : SpdrParamInterface :=
  let property :=
    match property with
    | Some p => p
    | None => PageOperator_str itemsPerPage
    end in
  let this := super property (OfOperator equals) (Number value) in
  set_query (property ++ AnyOperator_str (operator this)
             ++ Number_toString value) this.

End SpdrParam.


(** ** [spdrQueryBuilder.ts]: the builder *)

Module Builder.

Definition Param : Type := SpdrParam.SpdrParamInterface.

Inductive SpdrParamType : Type := param | sort | pagination.

(** The private fields of the class [SpdrQueryBuilder]. *)
Record SpdrQueryBuilder : Type := mkBuilder {
  _query : string;
  _operand : string;
  _history : list string;
  _params : list Param;
  _sortParams : list Param;
  _paginationParams : list Param
}.

Definition _DEFAULT_OPERAND : string := "&".

(** Assignments to one field of [this]. *)
Definition with_query (v : string) (this : SpdrQueryBuilder) :=
  mkBuilder v (_operand this) (_history this)
            (_params this) (_sortParams this) (_paginationParams this).

Definition with_operand (v : string) (this : SpdrQueryBuilder) :=
  mkBuilder (_query this) v (_history this)
            (_params this) (_sortParams this) (_paginationParams this).

Definition with_history (v : list string) (this : SpdrQueryBuilder) :=
  mkBuilder (_query this) (_operand this) v
            (_params this) (_sortParams this) (_paginationParams this).

Definition with_params (v : list Param) (this : SpdrQueryBuilder) :=
  mkBuilder (_query this) (_operand this) (_history this)
            v (_sortParams this) (_paginationParams this).

Definition with_sortParams (v : list Param) (this : SpdrQueryBuilder) :=
  mkBuilder (_query this) (_operand this) (_history this)
            (_params this) v (_paginationParams this).

Definition with_paginationParams (v : list Param) (this : SpdrQueryBuilder) :=
  mkBuilder (_query this) (_operand this) (_history this)
            (_params this) (_sortParams this) v.

(** [new SpdrQueryBuilder(operand)]. *)
Definition constructor (operand : option string) : SpdrQueryBuilder :=
  mkBuilder ""
            (match operand with Some o => o | None => _DEFAULT_OPERAND end)
            [] [] [] [].

(** [_append(param, operand = this._operand)].  [SpdrParamInterface] types
    [param.query] as a string, never null or undefined, so that
    [param.query ?? (...)] is [param.query]. *)
Definition _append (p : Param) (operand : option string)
           (this : SpdrQueryBuilder) : SpdrQueryBuilder :=
  let operand := match operand with Some o => o | None => _operand this end in
  let query := SpdrParam.query p in
  with_query (_query this ++ operand ++ query) this.

(** [[...this._params, ...this._sortParams, ...this._paginationParams]]. *)
Definition all_params (this : SpdrQueryBuilder) : list Param :=
  _params this ++ _sortParams this ++ _paginationParams this.

Definition _buildQuery (this : SpdrQueryBuilder) : SpdrQueryBuilder :=
  let this := with_query "" this in
  forEach (fun p (_ : Z) this => _append p None this) (all_params this) 0%Z
          this.

(** The getter [query]. *)
Definition query (this : SpdrQueryBuilder) : string :=
  slice (_query this) (String.length (_operand this)) None.

(** The getter [history]. *)
Definition history (this : SpdrQueryBuilder) : list string := _history this.

(** The getter [previousQuery]; [None] is [undefined]. *)
Definition previousQuery (this : SpdrQueryBuilder) : option string :=
  at_index (_history this) (Z.of_nat (List.length (_history this)) - 1)%Z.

(** The getters and setters of the three sequences. *)
Definition params (this : SpdrQueryBuilder) : list Param := _params this.

Definition set_params (v : list Param) (this : SpdrQueryBuilder) :=
  _buildQuery (with_params v this).

Definition sortParams (this : SpdrQueryBuilder) : list Param :=
  _sortParams this.

Definition set_sortParams (v : list Param) (this : SpdrQueryBuilder) :=
  _buildQuery (with_sortParams v this).

Definition paginationParams (this : SpdrQueryBuilder) : list Param :=
  _paginationParams this.

Definition set_paginationParams (v : list Param) (this : SpdrQueryBuilder) :=
  _buildQuery (with_paginationParams v this).

Definition operand (v : string) (this : SpdrQueryBuilder) : SpdrQueryBuilder :=
  with_operand v this.

Definition clearHistory (this : SpdrQueryBuilder) : SpdrQueryBuilder :=
  with_history [] this.

(** [Array.prototype.push] on each of the three sequences, then a rebuild. *)
Definition _addParam (p : Param) (this : SpdrQueryBuilder) :=
  _buildQuery (with_params (_params this ++ [p]) this).

Definition _addSortParam (p : Param) (this : SpdrQueryBuilder) :=
  _buildQuery (with_sortParams (_sortParams this ++ [p]) this).

Definition _addPaginationParam (p : Param) (this : SpdrQueryBuilder) :=
  _buildQuery (with_paginationParams (_paginationParams this ++ [p]) this).

(** The fluent methods; an absent optional argument is [None]. *)
Definition search (property : string) (values : list string)
           (operand : option string) (this : SpdrQueryBuilder) :=
  let operand := match operand with Some o => o | None => _operand this end in
  _addParam (SpdrParam.SpdrSearch property values (Some operand)) this.

Definition exists_ (property : string) (value : option bool)
           (this : SpdrQueryBuilder) :=
  let value := match value with Some v => v | None => true end in
  _addParam (SpdrParam.SpdrExists property value) this.

Definition range (property : string) (operator : SpdrParam.RangeOperator)
           (value : float) (secondValue : option float)
           (this : SpdrQueryBuilder) :=
  _addParam (SpdrParam.SpdrRange property operator value secondValue) this.

(** The constructor of [SpdrDate] may throw; the builder is then left as it
    was and the error reaches the caller. *)
Definition date (property : string) (operator : SpdrParam.DateOperator)
           (value : Date) (this : SpdrQueryBuilder)
  : completion SpdrQueryBuilder :=
  match SpdrParam.SpdrDate property operator value with
  | Throw e => Throw e
  | Normal p => Normal (_addParam p this)
  end.

Definition order (property : string) (direction : SpdrParam.OrderOperator)
           (this : SpdrQueryBuilder) :=
  _addSortParam (SpdrParam.SpdrOrder property direction) this.

Definition enablePagination (value : option bool) (property : option string)
           (this : SpdrQueryBuilder) :=
  let value := match value with Some v => v | None => true end in
  let property :=
    match property with
    | Some p => p
    | None => SpdrParam.PageOperator_str SpdrParam.pagination
    end in
  _addPaginationParam (SpdrParam.SpdrPagination (Some value) (Some property))
                      this.

Definition pageIndex (value : float) (property : option string)
           (this : SpdrQueryBuilder) :=
  let property :=
    match property with
    | Some p => p
    | None => SpdrParam.PageOperator_str SpdrParam.page
    end in
  _addPaginationParam (SpdrParam.SpdrPageIdx value (Some property)) this.

Definition pageSize (value : float) (property : option string)
           (this : SpdrQueryBuilder) :=
  let property :=
    match property with
    | Some p => p
    | None => SpdrParam.PageOperator_str SpdrParam.itemsPerPage
    end in
  _addPaginationParam (SpdrParam.SpdrPageSize value (Some property)) this.

(** [clear(type)]: the [switch], then [this._history.push(this.query)], then
    the rebuild. *)
Definition clear (type : option SpdrParamType) (this : SpdrQueryBuilder) :=
  let this :=
    match type with
    | Some param => with_params [] this
    | Some sort => with_sortParams [] this
    | Some pagination => with_paginationParams [] this
    | None =>
        with_paginationParams [] (with_sortParams [] (with_params [] this))
    end in
  let this := with_history (_history this ++ [query this]) this in
  _buildQuery this.

(** The callback of the [filter] calls of [remove]:
    [param.property !== property]. *)
Definition keeps (property : string) (p : Param) : bool :=
  negb (String.eqb (SpdrParam.property p) property).

Definition remove (property : string) (type : option SpdrParamType)
           (this : SpdrQueryBuilder) :=
  let this :=
    match type with
    | Some param =>
        with_params (filter (keeps property) (_params this)) this
    | Some sort =>
        with_sortParams (filter (keeps property) (_sortParams this)) this
    | Some pagination =>
        with_paginationParams
          (filter (keeps property) (_paginationParams this)) this
    | None =>
        let this :=
          with_params (filter (keeps property) (_params this)) this in
        let this :=
          with_sortParams (filter (keeps property) (_sortParams this)) this in
        with_paginationParams
          (filter (keeps property) (_paginationParams this)) this
    end in
  _buildQuery this.

(** *** Sequences of calls on one builder *)

(** A call of a public method or setter, with its arguments. *)
Inductive Call : Type :=
| Operand (value : string)
| ClearHistory
| Search (property : string) (values : list string) (operand : option string)
| Exists (property : string) (value : option bool)
| Range (property : string) (operator : SpdrParam.RangeOperator)
        (value : float) (secondValue : option float)
| DateCall (property : string) (operator : SpdrParam.DateOperator)
           (value : Date)
| OrderCall (property : string) (direction : SpdrParam.OrderOperator)
| EnablePagination (value : option bool) (property : option string)
| PageIndex (value : float) (property : option string)
| PageSize (value : float) (property : option string)
| Clear (type : option SpdrParamType)
| Remove (property : string) (type : option SpdrParamType)
| SetParams (value : list Param)
| SetSortParams (value : list Param)
| SetPaginationParams (value : list Param).

(** The builder after the call (unchanged when the call throws). *)
Definition call (c : Call) (this : SpdrQueryBuilder) : SpdrQueryBuilder :=
  match c with
  | Operand v => operand v this
  | ClearHistory => clearHistory this
  | Search p vs o => search p vs o this
  | Exists p v => exists_ p v this
  | Range p o v v2 => range p o v v2 this
  | DateCall p o v =>
      match date p o v this with
      | Normal this' => this'
      | Throw _ => this
      end
  | OrderCall p d => order p d this
  | EnablePagination v p => enablePagination v p this
  | PageIndex v p => pageIndex v p this
  | PageSize v p => pageSize v p this
  | Clear t => clear t this
  | Remove p t => remove p t this
  | SetParams v => set_params v this
  | SetSortParams v => set_sortParams v this
  | SetPaginationParams v => set_paginationParams v this
  end.

Definition calls (cs : list Call) (this : SpdrQueryBuilder)
  : SpdrQueryBuilder :=
  fold_left (fun this c => call c this) cs this.

(** The states a builder can be in: those a sequence of calls leads to from
    a newly constructed builder. *)
Definition reachable (this : SpdrQueryBuilder) : Prop :=
  exists (operand : option string) (cs : list Call),
    this = calls cs (constructor operand).

(** The calls that assign one of the three sequences; each ends with a
    rebuild.  A [date] call that throws assigns nothing. *)
Definition structural (c : Call) : bool :=
  match c with
  | Operand _ | ClearHistory => false
  | DateCall _ _ InvalidDate => false
  | _ => true
  end.

(** What a rebuild leaves in the accumulator [_query]: every token of [ps]
    preceded by [op]. *)
Fixpoint accumulated (op : string) (ps : list Param) : string :=
  match ps with
  | [] => ""
  | p :: t => op ++ SpdrParam.query p ++ accumulated op t
  end.

(** The query string recomputed from scratch from the three sequences and
    the operand of [this]. *)
Definition recomputed (this : SpdrQueryBuilder) : string :=
  query (_buildQuery this).

(** The tokens of [ps] joined by [sep]. *)
Definition joined (sep : string) (ps : list Param) : string :=
  String.concat sep (map SpdrParam.query ps).

(** The accumulator is the one a rebuild leaves for the current sequences
    and the current operand. *)
Definition rebuilt (this : SpdrQueryBuilder) : Prop :=
  _query this = accumulated (_operand this) (all_params this).

(** The calls other than [operand]. *)
Definition keeps_operand (c : Call) : bool :=
  match c with
  | Operand _ => false
  | _ => true
  end.

End Builder.

(** ** The tokens as the specification words them *)

Module Spec.

(** The strings of [l] one after the other. *)
Definition concat_all (l : list string) : string := fold_right append "" l.

(** The range and comparison operators as the specification writes them. *)
Definition range_word (operator : SpdrParam.RangeOperator) : string :=
  match operator with
  | SpdrParam.lt => "lt"
  | SpdrParam.lte => "lte"
  | SpdrParam.gt => "gt"
  | SpdrParam.gte => "gte"
  | SpdrParam.between => "between"
  end.

(** [<property>[<operator>]=<v>], the numbers as JavaScript prints them. *)
Definition range_single (property : string) (operator : SpdrParam.RangeOperator)
           (v : float) : string :=
  property ++ "[" ++ range_word operator ++ "]=" ++ Number_toString v.

(** [<property>[<operator>]=<v>..<v2>]. *)
Definition range_double (property : string) (operator : SpdrParam.RangeOperator)
           (v v2 : float) : string :=
  property ++ "[" ++ range_word operator ++ "]="
  ++ Number_toString v ++ ".." ++ Number_toString v2.

(** [<property>=<value>]. *)
Definition search_single (property value : string) : string :=
  property ++ "=" ++ value.

(** [<property>[]=<value>], the sub-token of one value among several. *)
Definition search_sub (property value : string) : string :=
  property ++ "[]=" ++ value.

(** For each value except the last its sub-token followed by the operand,
    then the sub-token of the last value. *)
Definition search_multi (property operand : string) (values : list string)
  : string :=
  concat_all (map (fun v => search_sub property v ++ operand)
                  (removelast values))
  ++ search_sub property (last values "").

(** [YYYY-MM-DD] for the year [y], the month [m] (from 1) and the day [d]. *)
Definition ymd (y m d : Z) : string :=
  pad4 y ++ "-" ++ pad2 m ++ "-" ++ pad2 d.

(** [<property>[<operator>]=<YYYY-MM-DD>] for the UTC calendar date of the
    time value [t]. *)
Definition date_token (property : string) (operator : SpdrParam.DateOperator)
           (t : Z) : string :=
  property ++ "[" ++ SpdrParam.DateOperator_str operator ++ "]="
  ++ ymd (YearFromTime t) (MonthFromTime t + 1) (DateFromTime t).

(** The category argument [type] of [clear] and [remove] covers the
    sequence [t]: it is absent, or it names [t]. *)
Definition covers (type : option Builder.SpdrParamType)
           (t : Builder.SpdrParamType) : bool :=
  match type, t with
  | None, _ => true
  | Some Builder.param, Builder.param => true
  | Some Builder.sort, Builder.sort => true
  | Some Builder.pagination, Builder.pagination => true
  | Some _, _ => false
  end.

End Spec.

(** ** Builders used as examples *)

Module Examples.

Import Builder.

(** [new SpdrQueryBuilder().exists('a').exists('b').operand('--')]. *)
Definition two_then_operand : SpdrQueryBuilder :=
  calls [Exists "a" None; Exists "b" None; Operand "--"] (constructor None).

(** [new SpdrQueryBuilder().exists('a').operand('--')]. *)
Definition one_then_operand : SpdrQueryBuilder :=
  calls [Exists "a" None; Operand "--"] (constructor None).

(** [new SpdrQueryBuilder().pageIndex(2).pageSize(30)]. *)
Definition paged : SpdrQueryBuilder :=
  calls [PageIndex 2%float None; PageSize 30%float None] (constructor None).

End Examples.

(** ** [lib/spdrQueryBuilder.js]: the compiled builder of the first version *)

Module Lib.

Definition Param : Type := SpdrParam.SpdrParamInterface.

(** The only field of that class. *)
Record SpdrQueryBuilder : Type := mkBuilder {
  _query : string
}.

(** [append(param, operand = '&')]. *)
Definition append (p : Param) (operand : option string)
           (this : SpdrQueryBuilder) : SpdrQueryBuilder :=
  let operand := match operand with Some o => o | None => "&" end in
  mkBuilder (_query this ++ operand ++ SpdrParam.query p).

(** [build(params, operand = '&')]: the appends, then [slice(1)]. *)
Definition build (params : list Param) (operand : option string)
           (this : SpdrQueryBuilder) : SpdrQueryBuilder :=
  let operand := match operand with Some o => o | None => "&" end in
  let this :=
    forEach (fun p (_ : Z) this => append p (Some operand) this) params 0%Z
            this in
  mkBuilder (slice (_query this) 1 None).

(** [new SpdrQueryBuilder(params)]; [None] is the call without argument.
    An array, even an empty one, is truthy. *)
Definition constructor (params : option (list Param)) : SpdrQueryBuilder :=
  let this := mkBuilder "" in
  match params with
  | Some ps => build ps None this
  | None => this
  end.

(** The getter [query]. *)
Definition query (this : SpdrQueryBuilder) : string := _query this.

End Lib.

(** ** The category each adding method feeds *)

Module Category.

Import Builder.

(** The private field behind a category. *)
Definition sequence (t : SpdrParamType) (this : SpdrQueryBuilder)
  : list Param :=
  match t with
  | param => _params this
  | sort => _sortParams this
  | pagination => _paginationParams this
  end.

(** The category of the sequence a call pushes a parameter onto:
    [_addParam] for [search], [exists], [range] and [date] (when it does
    not throw), [_addSortParam] for [order], [_addPaginationParam] for the
    three pagination methods; [None] for the calls that push nothing. *)
Definition adds (c : Call) : option SpdrParamType :=
  match c with
  | Search _ _ _ | Exists _ _ | Range _ _ _ _ => Some param
  | DateCall _ _ (TimeValue _) => Some param
  | OrderCall _ _ => Some sort
  | EnablePagination _ _ | PageIndex _ _ | PageSize _ _ => Some pagination
  | _ => None
  end.

(** [clear(...)] calls. *)
Definition is_clear (c : Call) : bool :=
  match c with
  | Clear _ => true
  | _ => false
  end.

(** The calls other than [clearHistory()]. *)
Definition keeps_history (c : Call) : bool :=
  match c with
  | ClearHistory => false
  | _ => true
  end.

End Category.

(** * Properties *)

(** ** Strings *)

Section Strings.

Lemma append_nil_r (s : string) : s ++ "" = s.
Proof. induction s as [|c s IH]; simpl; [reflexivity | now rewrite IH]. Qed.

Lemma append_assoc (a b c : string) : (a ++ b) ++ c = a ++ b ++ c.
Proof. induction a as [|x a IH]; simpl; [reflexivity | now rewrite IH]. Qed.

Lemma length_append (a b : string) :
  String.length (a ++ b) = String.length a + String.length b.
Proof. induction a as [|x a IH]; simpl; [reflexivity | now rewrite IH]. Qed.

(** Removing as many characters as a prefix has removes the prefix. *)
Lemma drop_length_append (a b : string) : drop (String.length a) (a ++ b) = b.
Proof. induction a as [|x a IH]; simpl; [now destruct b | exact IH]. Qed.

Lemma drop_nil (n : nat) : drop n "" = "".
Proof. now destruct n. Qed.

(** A string is not one of its own proper extensions. *)
Lemma append_fixpoint (s t : string) : s ++ t = s -> t = "".
Proof.
  intros H. apply (f_equal String.length) in H.
  rewrite length_append in H.
  destruct t; [reflexivity | simpl in H; lia].
Qed.

Lemma append_inj_l (s t u : string) : s ++ t = s ++ u -> t = u.
Proof.
  induction s as [|c s IH]; simpl; intros H; [exact H|].
  injection H as H. now apply IH.
Qed.

End Strings.

(** ** Parameter tokens *)

Section Tokens.

Import SpdrParam Spec.

Lemma query_set_query (q : string) (p : SpdrParamInterface) :
  query (set_query q p) = q.
Proof. reflexivity. Qed.

Lemma operator_set_query (q : string) (p : SpdrParamInterface) :
  operator (set_query q p) = operator p.
Proof. reflexivity. Qed.

Lemma forEach_cons {A S : Type} (f : A -> Z -> S -> S) x t i (s : S) :
  forEach f (x :: t) i s = forEach f t (i + 1)%Z (f x i s).
Proof. reflexivity. Qed.

(** The loop of [SpdrSearch] over the values from index [i] on, which end
    where [values] ends. *)
Lemma forEach_SpdrSearch_each (property operand : string)
      (values : list string) :
  forall (l : list string) (i : Z) (this : SpdrParamInterface),
    l <> [] ->
    (i + Z.of_nat (List.length l) = Z.of_nat (List.length values))%Z ->
    operator this = OfOperator equals ->
    query (forEach (SpdrSearch_each property values operand) l i this)
    = query this ++ search_multi property operand l.
Proof.
  induction l as [|x l IH]; intros i this Hne Hlen Hop; [congruence|].
  destruct l as [|y l].
  - simpl. unfold SpdrSearch_each. rewrite Hop.
    replace (i =? _)%Z with true by (symmetry; apply Z.eqb_eq; simpl in Hlen; lia).
    reflexivity.
  - rewrite forEach_cons, IH.
    + unfold SpdrSearch_each at 1. rewrite Hop.
      replace (i =? _)%Z with false
        by (symmetry; apply Z.eqb_neq; cbn [List.length] in Hlen; lia).
      rewrite query_set_query.
      unfold search_multi, search_sub.
      cbn [removelast map concat_all fold_right last AnyOperator_str Operator_str].
      repeat rewrite append_assoc. reflexivity.
    + discriminate.
    + cbn [List.length] in *. lia.
    + unfold SpdrSearch_each. destruct (_ =? _)%Z; exact Hop.
Qed.

(** C4. The token of a Range parameter is [<property>[<operator>]=<v>..<v2>]
    exactly when the operator is [between] and the second value is truthy;
    otherwise it is [<property>[<operator>]=<v>].  The second value is
    falsy when it is absent, a zero or [NaN]: so [between] with a second
    value of 0 gives the single-value form.  The numbers stand in the token
    as JavaScript prints them. *)
Theorem SpdrRange_token (property : string) (op : RangeOperator)
        (v v2 : float) :
  query (SpdrRange property op v (Some v2))
  = (if is_between op && truthy (Some v2)
     then range_double property op v v2
     else range_single property op v)
  /\ query (SpdrRange property op v None) = range_single property op v
  /\ (query (SpdrRange property op v (Some v2)) = range_double property op v v2
      <-> op = between /\ truthy (Some v2) = true)
  /\ (truthy (Some v2) = false
      <-> classify v2 = PZero \/ classify v2 = NZero \/ classify v2 = NaN)
  /\ query (SpdrRange property between v (Some 0%float))
     = range_single property between v
  /\ query (SpdrRange property between v (Some (-0)%float))
     = range_single property between v
  /\ query (SpdrRange property between v (Some nan))
     = range_single property between v
  /\ query (SpdrRange "price" between 10%float (Some 20%float))
     = "price[between]=10..20"
  /\ query (SpdrRange "price" between 10%float (Some 0%float))
     = "price[between]=10"
  /\ query (SpdrRange "price" between 0.5%float (Some 1.5%float))
     = "price[between]=0.5..1.5"
  /\ query (SpdrRange "price" lte (-7)%float (Some 20%float))
     = "price[lte]=-7"
  /\ query (SpdrRange "price" gt 1e21%float None) = "price[gt]=1e+21"
  /\ query (SpdrRange "price" gte 1e20%float None)
     = "price[gte]=100000000000000000000"
  /\ query (SpdrRange "price" lt nan None) = "price[lt]=NaN".
Proof.
  assert (Hsome : query (SpdrRange property op v (Some v2))
                  = if is_between op && truthy (Some v2)
                    then range_double property op v v2
                    else range_single property op v).
  { unfold SpdrRange. cbv zeta. rewrite query_set_query, andb_comm.
    destruct (is_between op && truthy (Some v2)); now destruct op. }
  split; [exact Hsome|].
  split; [now destruct op|].
  split.
  { rewrite Hsome. split.
    - destruct (is_between op && truthy (Some v2)) eqn:E.
      + intros _. apply andb_true_iff in E. destruct E as [Hb Ht].
        split; [now destruct op | exact Ht].
      + unfold range_double, range_single. intros H.
        repeat apply append_inj_l in H.
        symmetry in H. rewrite <- (append_nil_r (Number_toString v)) in H at 2.
        apply append_inj_l in H. discriminate.
    - intros [-> Ht]. now rewrite Ht. }
  split.
  { unfold truthy. destruct (classify v2); split; intros H;
      try discriminate H; auto;
      destruct H as [H|[H|H]]; discriminate H. }
  repeat split; vm_compute; reflexivity.
Qed.

(** The token of several values is their sub-tokens joined by the operand. *)
Lemma search_multi_concat (property operand : string) (values : list string) :
  values <> [] ->
  search_multi property operand values
  = String.concat operand (map (search_sub property) values).
Proof.
  induction values as [|v vs IH]; [congruence|]. intros _.
  destruct vs as [|w vs]; [reflexivity|].
  specialize (IH ltac:(discriminate)).
  change (String.concat operand (map (search_sub property) (v :: w :: vs)))
    with (search_sub property v ++ operand
          ++ String.concat operand (map (search_sub property) (w :: vs))).
  rewrite <- IH. unfold search_multi.
  cbn [removelast map concat_all fold_right last].
  now rewrite !append_assoc.
Qed.

(** C5. A Search parameter with exactly one value renders
    [<property>=<value>]; with two or more values it renders, for each value
    except the last, [<property>[]=<value>] followed by the operand, and
    then the sub-token of the last value without the operand.  The operand
    is the third argument, ["&"] when it is absent. *)
Theorem SpdrSearch_token (property : string) (operand : option string)
        (v : string) (vs : list string) :
  query (SpdrSearch property (v :: vs) operand)
  = match vs with
    | [] => search_single property v
    | _ :: _ =>
        search_multi property
                     (match operand with Some o => o | None => "&" end)
                     (v :: vs)
    end.
Proof.
  destruct vs as [|w vs]; [reflexivity|].
  unfold SpdrSearch. cbv zeta.
  rewrite forEach_SpdrSearch_each; [reflexivity | discriminate | lia | reflexivity].
Qed.

End Tokens.

(** ** Dates *)

Section Dates.

Import SpdrParam Spec.
Local Open Scope Z_scope.

(** [YearFromTime t] is the year whose first day is the last one not after
    the day of [t], as the ECMAScript specification defines it. *)
Lemma YearFromTime_spec (t : Z) :
  DayFromYear (YearFromTime t) <= Day t < DayFromYear (YearFromTime t + 1).
Proof.
  unfold YearFromTime. generalize (Day t). intros d. cbv zeta.
  destruct (Z.leb_spec (DayFromYear (1970 + 400 * d / 146097 + 1)) d);
    [|destruct (Z.ltb_spec d (DayFromYear (1970 + 400 * d / 146097)))];
    unfold DayFromYear in *; Z.div_mod_to_equations; lia.
Qed.

Lemma DayFromYear_mono (y y' : Z) : y <= y' -> DayFromYear y <= DayFromYear y'.
Proof. unfold DayFromYear. intros H. Z.div_mod_to_equations. lia. Qed.

Lemma YearFromTime_largest (t y : Z) :
  DayFromYear y <= Day t -> y <= YearFromTime t.
Proof.
  intros H. destruct (Z.le_gt_cases y (YearFromTime t)) as [|Hgt]; [assumption|].
  pose proof (YearFromTime_spec t) as [_ Hlt].
  pose proof (DayFromYear_mono (YearFromTime t + 1) y ltac:(lia)). lia.
Qed.

Lemma DayFromYear_succ (y : Z) :
  DayFromYear (y + 1) = DayFromYear y + DaysInYear y.
Proof.
  unfold DayFromYear, DaysInYear.
  destruct (Z.eqb_spec (y mod 4) 0); cbn [negb];
    [destruct (Z.eqb_spec (y mod 100) 0); cbn [negb];
     [destruct (Z.eqb_spec (y mod 400) 0); cbn [negb]|]|];
    Z.div_mod_to_equations; lia.
Qed.

(** The time values whose year is written with four digits: from
    0000-01-01T00:00:00.000Z to 9999-12-31T23:59:59.999Z. *)
Lemma YearFromTime_four_digits (t : Z) :
  0 <= YearFromTime t <= 9999
  <-> -62167219200000 <= t < 253402300800000.
Proof.
  pose proof (YearFromTime_spec t) as [Hlo Hhi].
  assert (H0 : DayFromYear 0 = -719528) by reflexivity.
  assert (H1 : DayFromYear 10000 = 2932897) by reflexivity.
  split.
  - intros [Hy0 Hy1].
    pose proof (DayFromYear_mono 0 (YearFromTime t) Hy0).
    pose proof (DayFromYear_mono (YearFromTime t + 1) 10000 ltac:(lia)).
    unfold Day, msPerDay in *. Z.div_mod_to_equations. lia.
  - intros Ht. split.
    + apply YearFromTime_largest. rewrite H0.
      unfold Day, msPerDay. Z.div_mod_to_equations. lia.
    + destruct (Z.le_gt_cases (YearFromTime t) 9999) as [|Hgt]; [assumption|].
      pose proof (DayFromYear_mono 10000 (YearFromTime t) ltac:(lia)).
      unfold Day, msPerDay in *. Z.div_mod_to_equations. lia.
Qed.

(** The day within the year counts from 0 and stays within the year. *)
Lemma DayWithinYear_range (t : Z) :
  0 <= DayWithinYear t < 365 + InLeapYear t.
Proof.
  unfold DayWithinYear, InLeapYear.
  pose proof (YearFromTime_spec t) as [Hlo Hhi].
  rewrite DayFromYear_succ in Hhi.
  assert (Hd : DaysInYear (YearFromTime t) = 365
               \/ DaysInYear (YearFromTime t) = 366).
  { unfold DaysInYear. repeat destruct (negb _); auto. }
  destruct Hd as [Hd|Hd]; rewrite Hd in *; simpl; lia.
Qed.

Lemma MonthFromTime_range (t : Z) : 0 <= MonthFromTime t <= 11.
Proof.
  unfold MonthFromTime. cbv zeta.
  repeat (destruct (_ <? _); [lia|]). lia.
Qed.

Lemma DateFromTime_range (t : Z) : 1 <= DateFromTime t <= 31.
Proof.
  pose proof (DayWithinYear_range t) as Hr.
  assert (Hl : InLeapYear t = 0 \/ InLeapYear t = 1)
    by (unfold InLeapYear; destruct (_ =? _); auto).
  unfold DateFromTime, MonthFromTime. cbv zeta.
  repeat match goal with
         | |- context [if ?a <? ?b then _ else _] =>
             destruct (Z.ltb_spec a b); [cbv iota; lia|]
         end.
  cbv iota. lia.
Qed.

(** The calendar date of a time value depends on its day only. *)
Lemma date_token_Day (property : string) (op : DateOperator) (t t' : Z) :
  Day t = Day t' -> date_token property op t = date_token property op t'.
Proof.
  intros H.
  unfold date_token, DateFromTime, MonthFromTime, InLeapYear, DayWithinYear,
    YearFromTime.
  rewrite H. reflexivity.
Qed.

(** The first ten characters of a string that starts with a date. *)
Lemma slice_ymd (y m d : Z) (rest : string) :
  slice (pad4 y ++ "-" ++ pad2 m ++ "-" ++ pad2 d ++ rest) 0 (Some 10%nat)
  = ymd y m d.
Proof. reflexivity. Qed.

(** No digit is a sign. *)
Lemma digit_not_plus (z : Z) (s : string) : digit z <> String "+" s.
Proof.
  unfold digit. intros H. injection H as H _.
  apply (f_equal nat_of_ascii) in H.
  assert (Hz : 0 <= z mod 10 < 10) by (apply Z.mod_pos_bound; lia).
  rewrite nat_ascii_embedding in H by lia.
  change (nat_of_ascii "+") with 43%nat in H. lia.
Qed.

(** X21. For every property name, date operator and valid date whose UTC
    year lies between 0 and 9999, the constructor returns a Date parameter
    whose token is [<property>[<operator>]=<YYYY-MM-DD>], the date part
    being the UTC calendar date of the value; the time of day does not
    appear in it. *)
Theorem SpdrDate_token (property : string) (op : DateOperator) (t : Z) :
  0 <= YearFromTime t <= 9999 ->
  SpdrDate property op (TimeValue t)
  = Normal (mkParam (date_token property op t) property
                    (DateValue (TimeValue t)) (OfDate op)).
Proof.
  intros [Hlo Hhi].
  unfold SpdrDate, toISOString, isoYear.
  replace ((0 <=? YearFromTime t) && (YearFromTime t <=? 9999)) with true
    by (symmetry; apply andb_true_iff; split; apply Z.leb_le; assumption).
  cbv zeta.
  rewrite (slice_ymd (YearFromTime t) (MonthFromTime t + 1) (DateFromTime t)).
  reflexivity.
Qed.

Lemma SpdrDate_token_witness :
  SpdrDate "createdAt" after (TimeValue 1620036000000)
  = Normal (mkParam "createdAt[after]=2021-05-03" "createdAt"
                    (DateValue (TimeValue 1620036000000)) (OfDate after)).
Proof.
  apply (SpdrDate_token "createdAt" after 1620036000000).
  vm_compute. split; discriminate.
Defined.

(** C6 fails on the code: for the first instant of the year 10000,
    [new Date(Date.UTC(10000, 0, 1))], the ISO string starts with the
    expanded year [+010000] and the token keeps its first ten characters,
    [+010000-01], which are not a date in the form YYYY-MM-DD that the
    comments of the constructor announce; on an invalid date the
    constructor throws. *)
Lemma SpdrDate_expanded_year :
  SpdrDate "createdAt" after (TimeValue 253402300800000)
  = Normal (mkParam "createdAt[after]=+010000-01" "createdAt"
                    (DateValue (TimeValue 253402300800000)) (OfDate after))
  /\ (forall y m d : Z, "+010000-01"%string <> ymd y m d)
  /\ SpdrDate "createdAt" after InvalidDate = Throw "RangeError".
Proof.
  split; [vm_compute; reflexivity|]. split; [|reflexivity].
  intros y m d H. unfold ymd, pad4 in H.
  destruct (digit (y / 1000)) as [|c s] eqn:E; [discriminate E|].
  simpl in H. injection H as Hc _. subst c.
  exact (digit_not_plus _ _ E).
Qed.

End Dates.

(** ** The builder *)

Section Rebuild.

Import Builder.

Lemma with_query_with_query (a b : string) (this : SpdrQueryBuilder) :
  with_query a (with_query b this) = with_query a this.
Proof. reflexivity. Qed.

Lemma with_query_same (this : SpdrQueryBuilder) :
  with_query (_query this) this = this.
Proof. now destruct this. Qed.

(** The loop of [_buildQuery] only grows the accumulator. *)
Lemma forEach__append (l : list Param) :
  forall (i : Z) (this : SpdrQueryBuilder),
    forEach (fun p (_ : Z) this => _append p None this) l i this
    = with_query (_query this ++ accumulated (_operand this) l) this.
Proof.
  induction l as [|p l IH]; intros i this.
  - simpl. now rewrite append_nil_r, with_query_same.
  - rewrite forEach_cons, IH. unfold _append. cbv zeta.
    rewrite with_query_with_query. cbn [_query _operand with_query accumulated].
    now rewrite !append_assoc.
Qed.

Lemma _buildQuery_eq (this : SpdrQueryBuilder) :
  _buildQuery this
  = with_query (accumulated (_operand this) (all_params this)) this.
Proof.
  unfold _buildQuery. cbv zeta. rewrite forEach__append.
  now rewrite with_query_with_query.
Qed.

Lemma rebuilt__buildQuery (this : SpdrQueryBuilder) :
  rebuilt (_buildQuery this).
Proof. rewrite _buildQuery_eq. reflexivity. Qed.

(** After the first token, the accumulator of the rest is the operand
    followed by the rest joined. *)
Lemma accumulated_joined (op : string) (ps : list Param) :
  ps <> [] -> accumulated op ps = op ++ joined op ps.
Proof.
  induction ps as [|p ps IH]; [congruence|]. intros _.
  destruct ps as [|p' ps].
  - simpl. now rewrite append_nil_r.
  - change (accumulated op (p :: p' :: ps))
      with (op ++ SpdrParam.query p ++ accumulated op (p' :: ps)).
    rewrite IH by discriminate. reflexivity.
Qed.

(** What the getter returns on a rebuilt builder, empty or not. *)
Lemma query_rebuilt (this : SpdrQueryBuilder) :
  rebuilt this -> query this = joined (_operand this) (all_params this).
Proof.
  unfold rebuilt, query, slice. intros ->.
  destruct (all_params this) as [|p ps] eqn:E.
  - simpl. apply drop_nil.
  - rewrite accumulated_joined by discriminate. apply drop_length_append.
Qed.

Lemma query_rebuilt_recomputed (this : SpdrQueryBuilder) :
  rebuilt this -> query this = recomputed this.
Proof.
  intros H. unfold recomputed. rewrite _buildQuery_eq.
  unfold query. cbn [_query _operand with_query]. now rewrite H.
Qed.

(** Every call that assigns a sequence returns from a rebuild. *)
Lemma structural_rebuilt (c : Call) (this : SpdrQueryBuilder) :
  structural c = true -> rebuilt (call c this).
Proof.
  destruct c; cbn [structural call]; try discriminate; intros H;
    try apply rebuilt__buildQuery.
  - destruct value; [discriminate|]. apply rebuilt__buildQuery.
Qed.

(** The calls other than [operand] keep the accumulator in step. *)
Lemma rebuilt_call (c : Call) (this : SpdrQueryBuilder) :
  keeps_operand c = true -> rebuilt this -> rebuilt (call c this).
Proof.
  intros Hk Hr. destruct (structural c) eqn:E.
  - now apply structural_rebuilt.
  - destruct c; try discriminate.
    + exact Hr.
    + destruct value; [exact Hr | discriminate].
Qed.

Lemma rebuilt_calls (cs : list Call) :
  forall this : SpdrQueryBuilder,
    forallb keeps_operand cs = true -> rebuilt this -> rebuilt (calls cs this).
Proof.
  induction cs as [|c cs IH]; intros this H Hr; [exact Hr|].
  cbn [forallb] in H. apply andb_true_iff in H. destruct H as [Hc Hcs].
  apply IH; [exact Hcs|]. now apply rebuilt_call.
Qed.

(** As long as the operand is not replaced, the getter returns the recomputed
    string. *)
Lemma query_recomputed_calls (o : option string) (cs : list Call) :
  forallb keeps_operand cs = true ->
  query (calls cs (constructor o)) = recomputed (calls cs (constructor o)).
Proof.
  intros H. apply query_rebuilt_recomputed, rebuilt_calls; [exact H|].
  reflexivity.
Qed.

End Rebuild.

Section BuilderProperties.

Import Builder Spec Examples.

Lemma accumulated_app (op : string) (a b : list Param) :
  accumulated op (a ++ b) = accumulated op a ++ accumulated op b.
Proof.
  induction a as [|p a IH]; [reflexivity|].
  simpl. now rewrite IH, !append_assoc.
Qed.

Lemma calls_app (cs cs' : list Call) (this : SpdrQueryBuilder) :
  calls (cs ++ cs') this = calls cs' (calls cs this).
Proof. apply fold_left_app. Qed.

Lemma reachable_calls (o : option string) (cs : list Call) :
  reachable (calls cs (constructor o)).
Proof. now exists o, cs. Qed.

(** The last element of an array, read at the index [length - 1]. *)
Lemma at_index_last {A : Type} (l : list A) :
  at_index l (Z.of_nat (List.length l) - 1) = last (map Some l) None.
Proof.
  destruct l as [|a l] using rev_ind; [reflexivity|].
  rewrite map_app. cbn [map]. rewrite last_last, length_app. cbn [List.length].
  unfold at_index.
  replace (_ <? 0)%Z with false by (symmetry; apply Z.ltb_ge; lia).
  replace (Z.to_nat _) with (List.length l) by lia.
  rewrite nth_error_app2, Nat.sub_diag by lia. reflexivity.
Qed.

Lemma filter_idem {A : Type} (f : A -> bool) (l : list A) :
  filter f (filter f l) = filter f l.
Proof.
  induction l as [|a l IH]; [reflexivity|].
  simpl. destruct (f a) eqn:E; [|exact IH].
  simpl. now rewrite E, IH.
Qed.

(** Immediately after every call that assigns one of the three sequences
    (an addition, a removal, a clear or the replacement of a sequence, each
    of which rebuilds), if the three sequences are collectively non-empty
    then the accumulator is the operand followed by [query], and [query] is
    the tokens of the filters, then of the sort parameters, then of the
    pagination parameters, each sequence in insertion order, joined by the
    current operand. *)
Lemma query_joined (c : Call) (this : SpdrQueryBuilder) :
  structural c = true ->
  all_params (call c this) <> [] ->
  _query (call c this) = _operand (call c this) ++ query (call c this)
  /\ query (call c this)
     = joined (_operand (call c this))
              (_params (call c this) ++ _sortParams (call c this)
               ++ _paginationParams (call c this)).
Proof.
  intros Hs Hne. pose proof (structural_rebuilt c this Hs) as Hr.
  rewrite (query_rebuilt _ Hr). split; [|reflexivity].
  rewrite Hr. now apply accumulated_joined.
Qed.

Example query_joined_paged :
  _query (call (EnablePagination (Some true) None) paged)
  = _operand (call (EnablePagination (Some true) None) paged)
    ++ query (call (EnablePagination (Some true) None) paged)
  /\ query (call (EnablePagination (Some true) None) paged)
     = joined "&" [SpdrParam.SpdrPageIdx 2%float None; SpdrParam.SpdrPageSize 30%float None;
                   SpdrParam.SpdrPagination (Some true) None].
Proof.
  apply (query_joined (EnablePagination (Some true) None) paged).
  - reflexivity.
  - vm_compute. discriminate.
Qed.

(** C1 fails on the code: after [exists('a')] and [exists('b')] on a new
    builder and then [operand('--')], the three sequences are not empty and
    [query] is the accumulator of the last rebuild, joined with ["&"],
    without its first two characters; it is not the two tokens joined by the
    current operand. *)
Theorem query_not_joined_after_operand :
  reachable two_then_operand
  /\ all_params two_then_operand <> []
  /\ query two_then_operand = "xists[a]=true&exists[b]=true"
  /\ joined (_operand two_then_operand) (all_params two_then_operand)
     = "exists[a]=true--exists[b]=true"
  /\ query two_then_operand
     <> joined (_operand two_then_operand) (all_params two_then_operand).
Proof.
  split; [apply reachable_calls|].
  split; [vm_compute; discriminate|].
  split; [vm_compute; reflexivity|].
  split; [vm_compute; reflexivity|].
  vm_compute. discriminate.
Qed.

Lemma history__buildQuery (this : SpdrQueryBuilder) :
  history (_buildQuery this) = history this.
Proof. now rewrite _buildQuery_eq. Qed.

(** The history after a method that ends with a rebuild is the history
    before that rebuild. *)
Ltac through_rebuild :=
  etransitivity; [apply history__buildQuery|].

(** Only [clear] appends to the history and only [clearHistory] empties it:
    every other call leaves it as it was. *)
Lemma history_call (c : Call) (this : SpdrQueryBuilder) :
  history (call c this)
  = match c with
    | Clear _ => (history this ++ [query this])%list
    | ClearHistory => []
    | _ => history this
    end.
Proof.
  destruct c; cbn [call]; try reflexivity; try (through_rebuild; reflexivity).
  - destruct value; [reflexivity|]. through_rebuild. reflexivity.
  - through_rebuild. now destruct type as [[]|].
  - through_rebuild. now destruct type as [[]|].
Qed.

(** C2. [clear()] without an argument empties the three sequences, appends
    to the history exactly one entry, the value [query] had just before the
    call (as [clear] does with any argument), and leaves [query] empty; so
    after any sequence of calls that ends with such a clear, the last entry
    of the history is the query as it was just before that clear. *)
Theorem clear_all (this : SpdrQueryBuilder) :
  _params (clear None this) = []
  /\ _sortParams (clear None this) = []
  /\ _paginationParams (clear None this) = []
  /\ history (clear None this) = (history this ++ [query this])%list
  /\ (forall type : option SpdrParamType,
        history (clear type this) = (history this ++ [query this])%list)
  /\ query (clear None this) = ""
  /\ previousQuery (clear None this) = Some (query this)
  /\ (forall cs : list Call,
        previousQuery (calls (cs ++ [Clear None]) this)
        = Some (query (calls cs this))).
Proof.
  assert (Hprev : forall b, previousQuery (clear None b) = Some (query b)).
  { intros b. unfold previousQuery, clear. cbv zeta.
    rewrite _buildQuery_eq. cbn [_history with_query with_history].
    rewrite at_index_last, map_app. cbn [map]. now rewrite last_last. }
  unfold clear at 1 2 3 4 6. cbv zeta. rewrite !_buildQuery_eq.
  repeat (split; [reflexivity|]).
  split; [intros type; apply (history_call (Clear type))|].
  split; [apply drop_nil|].
  split; [apply Hprev|].
  intros cs. rewrite calls_app. apply Hprev.
Qed.

(** C3 fails on the code: after [exists('a')] on a new builder and then
    [operand('--')], [query] is the accumulator of the last rebuild, built
    with ["&"], without its first two characters, while the string
    recomputed from the sequences and the operand is the whole token. *)
Theorem query_stale_after_operand :
  reachable one_then_operand
  /\ query one_then_operand = "xists[a]=true"
  /\ recomputed one_then_operand = "exists[a]=true"
  /\ query one_then_operand <> recomputed one_then_operand.
Proof.
  split; [apply reachable_calls|].
  split; [vm_compute; reflexivity|].
  split; [vm_compute; reflexivity|].
  vm_compute. discriminate.
Qed.

(** C7. [remove(property, type)] keeps, in every sequence the category
    argument covers (all three when it is absent, the named one otherwise),
    exactly the parameters whose property differs from the argument, in
    their order, and leaves the other sequences as they were; the history
    and the operand are unchanged and [query] is the join of what remains. *)
Theorem remove_spec (property : string) (type : option SpdrParamType)
        (this : SpdrQueryBuilder) :
  _params (remove property type this)
  = (if covers type param then filter (keeps property) (_params this)
     else _params this)
  /\ _sortParams (remove property type this)
     = (if covers type sort then filter (keeps property) (_sortParams this)
        else _sortParams this)
  /\ _paginationParams (remove property type this)
     = (if covers type pagination
        then filter (keeps property) (_paginationParams this)
        else _paginationParams this)
  /\ (forall (l : list Param) (p : Param),
        In p (filter (keeps property) l)
        <-> In p l /\ SpdrParam.property p <> property)
  /\ history (remove property type this) = history this
  /\ _operand (remove property type this) = _operand this
  /\ query (remove property type this)
     = joined (_operand this)
              ((if covers type param
                then filter (keeps property) (_params this)
                else _params this)
               ++ (if covers type sort
                   then filter (keeps property) (_sortParams this)
                   else _sortParams this)
               ++ (if covers type pagination
                   then filter (keeps property) (_paginationParams this)
                   else _paginationParams this)).
Proof.
  assert (Hq : query (remove property type this)
               = joined (_operand (remove property type this))
                        (all_params (remove property type this))).
  { apply query_rebuilt. unfold remove. apply rebuilt__buildQuery. }
  assert (Hin : forall (l : list Param) (p : Param),
             In p (filter (keeps property) l)
             <-> In p l /\ SpdrParam.property p <> property).
  { intros l p. rewrite filter_In. unfold keeps.
    rewrite negb_true_iff, String.eqb_neq. reflexivity. }
  rewrite Hq. clear Hq. unfold remove. cbv zeta. rewrite _buildQuery_eq.
  destruct type as [[]|]; repeat (split; [reflexivity || exact Hin|]);
    reflexivity.
Qed.

(** C8. [previousQuery] is the last entry of the history, the most recently
    appended one, and is undefined when the history is empty. *)
Theorem previousQuery_last (this : SpdrQueryBuilder) :
  previousQuery this = last (map Some (history this)) None
  /\ (forall (h : list string) (x : string),
        previousQuery (with_history (h ++ [x]) this) = Some x)
  /\ previousQuery (with_history [] this) = None.
Proof.
  split; [apply at_index_last|]. split; [|reflexivity].
  intros h x. unfold previousQuery. cbn [_history with_history].
  rewrite at_index_last, map_app. cbn [map]. now rewrite last_last.
Qed.

(** C9. A Search parameter built from no value has the empty string as its
    token, whatever the property and the operand; appending it adds the
    operand alone to the accumulator, and after [search(property, [])] the
    accumulator has one bare operand where the token would stand, after the
    filters and before the sort parameters. *)
Theorem SpdrSearch_empty (property : string) (operand : option string) :
  SpdrParam.query (SpdrParam.SpdrSearch property [] operand) = ""
  /\ (forall this : SpdrQueryBuilder,
        _query (_append (SpdrParam.SpdrSearch property [] operand) None this)
        = _query this ++ _operand this)
  /\ (forall this : SpdrQueryBuilder,
        _query (search property [] operand this)
        = accumulated (_operand this) (_params this)
          ++ _operand this
          ++ accumulated (_operand this)
                         (_sortParams this ++ _paginationParams this)).
Proof.
  split; [reflexivity|]. split; intros this.
  - unfold _append. cbn. now rewrite append_nil_r.
  - unfold search, _addParam. cbv zeta. rewrite _buildQuery_eq.
    cbn [_query with_query _operand with_params].
    unfold all_params. cbn [_params _sortParams _paginationParams with_params].
    rewrite <- app_assoc, !accumulated_app. cbn [accumulated].
    change (SpdrParam.query (SpdrParam.SpdrSearch property [] _)) with "".
    cbn [append]. now rewrite append_nil_r.
Qed.

(** C10. Removing the same property from the same category twice in a row
    leaves the builder exactly as removing it once does. *)
Theorem remove_idempotent (property : string) (type : option SpdrParamType)
        (this : SpdrQueryBuilder) :
  remove property type (remove property type this)
  = remove property type this.
Proof.
  unfold remove. cbv zeta. rewrite !_buildQuery_eq.
  destruct type as [[]|];
    cbn [_query _operand _history _params _sortParams _paginationParams
         with_query with_params with_sortParams with_paginationParams
         all_params];
    rewrite ?filter_idem; reflexivity.
Qed.

End BuilderProperties.

(** ** The examples of the specification *)

Section SpecExamples.

Import Builder Examples.

Example toISOString_2021 :
  toISOString (TimeValue 1620036000000) = Normal "2021-05-03T10:00:00.000Z".
Proof. vm_compute. reflexivity. Qed.

Example toISOString_limits :
  toISOString (TimeValue 253402300799999) = Normal "9999-12-31T23:59:59.999Z"
  /\ toISOString (TimeValue (-62167219200000))
     = Normal "0000-01-01T00:00:00.000Z"
  /\ toISOString (TimeValue (-1)) = Normal "1969-12-31T23:59:59.999Z"
  /\ toISOString (TimeValue 951782400000) = Normal "2000-02-29T00:00:00.000Z"
  /\ toISOString (TimeValue 4107542400000) = Normal "2100-03-01T00:00:00.000Z".
Proof. repeat split; vm_compute; reflexivity. Qed.

Example Number_toString_ex :
  map Number_toString
      [10; 0; -0; -7; 0.5; 123.456; 1e21; 1e20; 1e-6; 1e-7;
       0x1p53; 0x1p63; 0x1p-1074; 0x1.fffffffffffffp1023;
       nan; infinity; neg_infinity]%float
  = ["10"; "0"; "0"; "-7"; "0.5"; "123.456"; "1e+21";
     "100000000000000000000"; "0.000001"; "1e-7";
     "9007199254740992"; "9223372036854776000"; "5e-324";
     "1.7976931348623157e+308"; "NaN"; "Infinity"; "-Infinity"].
Proof. vm_compute. reflexivity. Qed.

Example SpdrSearch_one :
  SpdrParam.query (SpdrParam.SpdrSearch "tag" ["a"] None) = "tag=a".
Proof. reflexivity. Qed.

Example SpdrSearch_two :
  SpdrParam.query (SpdrParam.SpdrSearch "tag" ["a"; "b"] (Some "&"))
  = "tag[]=a&tag[]=b".
Proof. reflexivity. Qed.

Example SpdrRange_between :
  SpdrParam.query
    (SpdrParam.SpdrRange "price" SpdrParam.between 10%float (Some 20%float))
  = "price[between]=10..20".
Proof. vm_compute. reflexivity. Qed.

Example SpdrRange_between_zero :
  SpdrParam.query
    (SpdrParam.SpdrRange "price" SpdrParam.between 10%float (Some 0%float))
  = "price[between]=10".
Proof. vm_compute. reflexivity. Qed.

Example SpdrExists_order :
  SpdrParam.query (SpdrParam.SpdrExists "name" false) = "exists[name]=false"
  /\ SpdrParam.query (SpdrParam.SpdrOrder "name" SpdrParam.desc)
     = "order[name]=desc".
Proof. split; reflexivity. Qed.

Example pagination_in_order :
  query (calls [PageIndex 2%float None; PageSize 30%float None;
                EnablePagination (Some true) None] (constructor None))
  = "page=2&itemsPerPage=30&pagination=true".
Proof. vm_compute. reflexivity. Qed.

Example categories_in_order :
  query (calls [PageIndex 2%float None; OrderCall "name" SpdrParam.asc;
                Range "price" SpdrParam.gte 10%float None]
               (constructor (Some ";")))
  = "price[gte]=10;order[name]=asc;page=2".
Proof. vm_compute. reflexivity. Qed.

Example set_params_rebuilds :
  query (set_params [SpdrParam.SpdrExists "a" true] paged)
  = "exists[a]=true&page=2&itemsPerPage=30".
Proof. vm_compute. reflexivity. Qed.

Example clear_one_category :
  query (clear (Some pagination)
               (calls [PageIndex 2%float None; OrderCall "name" SpdrParam.asc]
                      (constructor None)))
  = "order[name]=asc".
Proof. vm_compute. reflexivity. Qed.

End SpecExamples.

(** * Further properties of the builder *)

Section Clearing.

Import Builder Spec Category.

(** X1. [clear(type)] with a category empties that sequence only, appends
    the value [query] had before the call to the history, so that it becomes
    [previousQuery], keeps the operand, and leaves [query] the join of the
    tokens of the two other categories. *)
Theorem clear_category (t : SpdrParamType) (this : SpdrQueryBuilder) :
  sequence t (clear (Some t) this) = []
  /\ (forall t' : SpdrParamType,
        t' <> t -> sequence t' (clear (Some t) this) = sequence t' this)
  /\ history (clear (Some t) this) = (history this ++ [query this])%list
  /\ previousQuery (clear (Some t) this) = Some (query this)
  /\ _operand (clear (Some t) this) = _operand this
  /\ query (clear (Some t) this)
     = joined (_operand this)
              (match t with
               | param => _sortParams this ++ _paginationParams this
               | sort => _params this ++ _paginationParams this
               | pagination => _params this ++ _sortParams this
               end).
Proof.
  assert (Hq : query (clear (Some t) this)
               = joined (_operand (clear (Some t) this))
                        (all_params (clear (Some t) this)))
    by (apply query_rebuilt; unfold clear; apply rebuilt__buildQuery).
  assert (Hh : history (clear (Some t) this)
               = (history this ++ [query this])%list)
    by apply (history_call (Clear (Some t))).
  split; [|split; [|split; [exact Hh|split; [|split]]]].
  - unfold clear. cbv zeta. rewrite _buildQuery_eq. now destruct t.
  - intros t' Hne. unfold clear. cbv zeta. rewrite _buildQuery_eq.
    destruct t, t'; try reflexivity; congruence.
  - unfold previousQuery. change (_history (clear (Some t) this))
      with (history (clear (Some t) this)).
    rewrite Hh, at_index_last, map_app. cbn [map]. now rewrite last_last.
  - unfold clear. cbv zeta. rewrite _buildQuery_eq. now destruct t.
  - rewrite Hq. unfold clear. cbv zeta. rewrite _buildQuery_eq.
    destruct t; unfold all_params;
      cbn [_params _sortParams _paginationParams _operand with_query
           with_params with_sortParams with_paginationParams with_history];
      rewrite ?app_nil_r; reflexivity.
Qed.

(** X2. [clear()] is not idempotent: a second [clear()] right after the
    first changes nothing but the history, to which it appends the empty
    string, the query of the emptied builder. *)
Theorem clear_twice (this : SpdrQueryBuilder) :
  clear None (clear None this)
  = with_history (history (clear None this) ++ [""]) (clear None this).
Proof.
  unfold clear. cbv zeta. rewrite !_buildQuery_eq.
  unfold query, history, slice.
  cbn [_query _operand _history _params _sortParams _paginationParams
       with_query with_params with_sortParams with_paginationParams
       with_history all_params app accumulated].
  now rewrite drop_nil.
Qed.

(** X3. The history is an append-only log: along any sequence of calls
    without [clearHistory()] the entries already there stay in place, and
    the entries added are as many as the [clear] calls of the sequence. *)
Theorem history_append_only (cs : list Call) :
  forall this : SpdrQueryBuilder,
    forallb keeps_history cs = true ->
    exists added : list string,
      history (calls cs this) = (history this ++ added)%list
      /\ List.length added = List.length (filter is_clear cs).
Proof.
  induction cs as [|c cs IH]; intros this H.
  - exists []. now rewrite app_nil_r.
  - cbn [forallb] in H. apply andb_true_iff in H. destruct H as [Hc Hcs].
    destruct (IH (call c this) Hcs) as [added [Hh Hl]].
    change (calls (c :: cs) this) with (calls cs (call c this)).
    rewrite Hh, history_call.
    destruct c; try discriminate Hc;
      try (exists added; split; [reflexivity | exact Hl]).
    exists (query this :: added). split.
    + now rewrite <- app_assoc.
    + cbn [filter is_clear List.length]. now rewrite Hl.
Qed.

Lemma history_append_only_witness :
  exists added : list string,
    history (calls [Clear None; Clear (Some sort)] Examples.paged)
    = (history Examples.paged ++ added)%list
    /\ List.length added = 2%nat.
Proof.
  apply (history_append_only [Clear None; Clear (Some sort)] Examples.paged).
  reflexivity.
Defined.

(** X4. Assigning a sequence through its setter and reading it back gives
    the assigned array; the two other sequences and the history are kept,
    and [query] is at once the join of the new contents, in category
    order. *)
Theorem setters_spec (v : list Param) (this : SpdrQueryBuilder) :
  (params (set_params v this) = v
   /\ sortParams (set_params v this) = sortParams this
   /\ paginationParams (set_params v this) = paginationParams this
   /\ history (set_params v this) = history this
   /\ query (set_params v this)
      = joined (_operand this)
               (v ++ sortParams this ++ paginationParams this))
  /\ (params (set_sortParams v this) = params this
      /\ sortParams (set_sortParams v this) = v
      /\ paginationParams (set_sortParams v this) = paginationParams this
      /\ history (set_sortParams v this) = history this
      /\ query (set_sortParams v this)
         = joined (_operand this)
                  (params this ++ v ++ paginationParams this))
  /\ (params (set_paginationParams v this) = params this
      /\ sortParams (set_paginationParams v this) = sortParams this
      /\ paginationParams (set_paginationParams v this) = v
      /\ history (set_paginationParams v this) = history this
      /\ query (set_paginationParams v this)
         = joined (_operand this) (params this ++ sortParams this ++ v)).
Proof.
  repeat split;
    try (unfold set_params, set_sortParams, set_paginationParams;
         rewrite _buildQuery_eq; reflexivity);
    (etransitivity;
     [apply query_rebuilt; apply rebuilt__buildQuery
     | unfold set_params, set_sortParams, set_paginationParams;
       rewrite _buildQuery_eq; reflexivity]).
Qed.

End Clearing.

Section Removing.

Import Builder Spec Category.

Lemma filter_comm {A : Type} (f g : A -> bool) (l : list A) :
  filter f (filter g l) = filter g (filter f l).
Proof.
  induction l as [|a l IH]; [reflexivity|].
  simpl. destruct (g a) eqn:Eg, (f a) eqn:Ef; simpl;
    rewrite ?Eg, ?Ef, IH; reflexivity.
Qed.

Lemma filter_all {A : Type} (f : A -> bool) (l : list A) :
  forallb f l = true -> filter f l = l.
Proof.
  induction l as [|a l IH]; [reflexivity|].
  simpl. intros H. apply andb_true_iff in H. destruct H as [Ha Hl].
  now rewrite Ha, IH.
Qed.

Lemma keeps_own_property (x : Param) : keeps (SpdrParam.property x) x = false.
Proof. unfold keeps. now rewrite String.eqb_refl. Qed.

Lemma filter_keeps_pushed (x : Param) (l : list Param) :
  filter (keeps (SpdrParam.property x)) (l ++ [x])
  = filter (keeps (SpdrParam.property x)) l.
Proof.
  rewrite filter_app. cbn [filter]. rewrite keeps_own_property.
  apply app_nil_r.
Qed.

Lemma property_forEach_SpdrSearch_each (property operand : string)
      (values l : list string) :
  forall (i : Z) (this : Param),
    SpdrParam.property
      (forEach (SpdrParam.SpdrSearch_each property values operand) l i this)
    = SpdrParam.property this.
Proof.
  induction l as [|v l IH]; intros i this; [reflexivity|].
  rewrite forEach_cons, IH. reflexivity.
Qed.

(** A Search parameter keeps the property it was built with. *)
Lemma property_SpdrSearch (property : string) (values : list string)
      (operand : option string) :
  SpdrParam.property (SpdrParam.SpdrSearch property values operand) = property.
Proof.
  unfold SpdrParam.SpdrSearch. cbv zeta.
  destruct values as [|v [|w vs]]; try reflexivity.
  now rewrite property_forEach_SpdrSearch_each.
Qed.

(** [remove] as one assignment of the six fields. *)
Lemma remove_eq (property : string) (type : option SpdrParamType)
      (this : SpdrQueryBuilder) :
  remove property type this
  = let ps := if covers type param
              then filter (keeps property) (_params this)
              else _params this in
    let ss := if covers type sort
              then filter (keeps property) (_sortParams this)
              else _sortParams this in
    let gs := if covers type pagination
              then filter (keeps property) (_paginationParams this)
              else _paginationParams this in
    mkBuilder (accumulated (_operand this) (ps ++ ss ++ gs))
              (_operand this) (_history this) ps ss gs.
Proof.
  unfold remove. cbv zeta. rewrite _buildQuery_eq.
  now destruct type as [[]|].
Qed.

(** X5. Two removals commute, whatever their properties and categories. *)
Theorem remove_comm (p q : string) (t u : option SpdrParamType)
        (this : SpdrQueryBuilder) :
  remove p t (remove q u this) = remove q u (remove p t this).
Proof.
  rewrite !remove_eq. cbv zeta.
  cbn [_query _operand _history _params _sortParams _paginationParams].
  destruct t as [[]|], u as [[]|]; cbn [covers];
    rewrite ?(filter_comm (keeps p) (keeps q)); reflexivity.
Qed.

(** X6. [remove(property)] without a category is the three removals by
    category one after the other. *)
Theorem remove_all_by_category (property : string) (this : SpdrQueryBuilder) :
  remove property None this
  = remove property (Some pagination)
           (remove property (Some sort) (remove property (Some param) this)).
Proof. rewrite !remove_eq. reflexivity. Qed.

(** X7. Removing a property that no parameter of the covered sequences has
    leaves a builder that was just rebuilt exactly as it is: the sequences,
    the accumulator, the operand and the history. *)
Theorem remove_absent (property : string) (type : option SpdrParamType)
        (this : SpdrQueryBuilder) :
  rebuilt this ->
  forallb (keeps property) (all_params this) = true ->
  remove property type this = this.
Proof.
  unfold rebuilt, all_params. intros Hr Hk.
  rewrite !forallb_app in Hk.
  apply andb_true_iff in Hk. destruct Hk as [Hp Hk].
  apply andb_true_iff in Hk. destruct Hk as [Hs Hg].
  rewrite remove_eq. cbv zeta.
  rewrite (filter_all _ _ Hp), (filter_all _ _ Hs), (filter_all _ _ Hg).
  destruct this as [q o h ps ss gs]. cbn in *. subst q.
  now destruct (covers type param), (covers type sort),
    (covers type pagination).
Qed.

Lemma remove_absent_witness :
  remove "price" None Examples.paged = Examples.paged.
Proof.
  apply (remove_absent "price" None Examples.paged).
  - vm_compute. reflexivity.
  - vm_compute. reflexivity.
Defined.

(** X8. Removing, from all categories or from its own, the property of the
    parameter an adding method has just pushed undoes the push: the builder
    is the one the same removal gives without the push.  So it is for the
    public methods, each with the property it was given or its default. *)
Theorem remove_after_add (x : Param) (this : SpdrQueryBuilder) :
  (remove (SpdrParam.property x) None (_addParam x this)
   = remove (SpdrParam.property x) None this
   /\ remove (SpdrParam.property x) (Some param) (_addParam x this)
      = remove (SpdrParam.property x) (Some param) this)
  /\ (remove (SpdrParam.property x) None (_addSortParam x this)
      = remove (SpdrParam.property x) None this
      /\ remove (SpdrParam.property x) (Some sort) (_addSortParam x this)
         = remove (SpdrParam.property x) (Some sort) this)
  /\ (remove (SpdrParam.property x) None (_addPaginationParam x this)
      = remove (SpdrParam.property x) None this
      /\ remove (SpdrParam.property x) (Some pagination)
                (_addPaginationParam x this)
         = remove (SpdrParam.property x) (Some pagination) this)
  /\ (forall (p : string) (vs : list string) (o : option string),
        remove p None (search p vs o this) = remove p None this)
  /\ (forall (p : string) (v : option bool),
        remove p None (exists_ p v this) = remove p None this)
  /\ (forall (p : string) (o : SpdrParam.RangeOperator) (v : float)
             (v2 : option float),
        remove p None (range p o v v2 this) = remove p None this)
  /\ (forall (p : string) (d : SpdrParam.OrderOperator),
        remove p None (order p d this) = remove p None this)
  /\ (forall v : option bool,
        remove "pagination" None (enablePagination v None this)
        = remove "pagination" None this)
  /\ (forall v : float,
        remove "page" None (pageIndex v None this) = remove "page" None this)
  /\ (forall v : float,
        remove "itemsPerPage" None (pageSize v None this)
        = remove "itemsPerPage" None this).
Proof.
  assert (Hp : forall (y : Param) (t : option SpdrParamType),
             covers t param = true ->
             remove (SpdrParam.property y) t (_addParam y this)
             = remove (SpdrParam.property y) t this).
  { intros y t Ht. unfold _addParam. rewrite !remove_eq, _buildQuery_eq.
    cbv zeta. rewrite Ht.
    cbn [_query _operand _history _params _sortParams _paginationParams
         with_query with_params].
    now rewrite filter_keeps_pushed. }
  assert (Hs : forall (y : Param) (t : option SpdrParamType),
             covers t sort = true ->
             remove (SpdrParam.property y) t (_addSortParam y this)
             = remove (SpdrParam.property y) t this).
  { intros y t Ht. unfold _addSortParam. rewrite !remove_eq, _buildQuery_eq.
    cbv zeta. rewrite Ht.
    cbn [_query _operand _history _params _sortParams _paginationParams
         with_query with_sortParams].
    now rewrite filter_keeps_pushed. }
  assert (Hg : forall (y : Param) (t : option SpdrParamType),
             covers t pagination = true ->
             remove (SpdrParam.property y) t (_addPaginationParam y this)
             = remove (SpdrParam.property y) t this).
  { intros y t Ht. unfold _addPaginationParam.
    rewrite !remove_eq, _buildQuery_eq.
    cbv zeta. rewrite Ht.
    cbn [_query _operand _history _params _sortParams _paginationParams
         with_query with_paginationParams].
    now rewrite filter_keeps_pushed. }
  assert (Hp' : forall (y : Param) (p : string),
             SpdrParam.property y = p ->
             remove p None (_addParam y this) = remove p None this)
    by (intros y p <-; now apply Hp).
  assert (Hs' : forall (y : Param) (p : string),
             SpdrParam.property y = p ->
             remove p None (_addSortParam y this) = remove p None this)
    by (intros y p <-; now apply Hs).
  assert (Hg' : forall (y : Param) (p : string),
             SpdrParam.property y = p ->
             remove p None (_addPaginationParam y this) = remove p None this)
    by (intros y p <-; now apply Hg).
  split; [split; apply Hp; reflexivity|].
  split; [split; apply Hs; reflexivity|].
  split; [split; apply Hg; reflexivity|].
  split; [intros p vs o; apply Hp', property_SpdrSearch|].
  split; [intros p v; now apply Hp'|].
  split; [intros p o v v2; now apply Hp'|].
  split; [intros p d; now apply Hs'|].
  split; [intros v; now apply Hg'|].
  split; intros v; now apply Hg'.
Qed.

End Removing.

Section Adding.

Import Builder Spec Category.

(** A call that pushes is one of the three private additions, of a
    parameter that depends on the builder through its operand at most. *)
Lemma adds_push (c : Call) (t : SpdrParamType) :
  adds c = Some t ->
  exists f : string -> Param,
    forall this : SpdrQueryBuilder,
      call c this
      = match t with
        | param => _addParam
        | sort => _addSortParam
        | pagination => _addPaginationParam
        end (f (_operand this)) this.
Proof.
  destruct c as [v| |p vs o|p v|p o v v2|p o d|p d|v p|v p|v p|ty|p ty|v|v|v];
    cbn [adds]; try discriminate;
    try (destruct d; try discriminate);
    intros [= <-];
    try (eexists (fun _ => _); intros this; reflexivity).
  exists (fun op =>
            SpdrParam.SpdrSearch p vs
              (Some match o with Some o' => o' | None => op end)).
  reflexivity.
Qed.

Lemma operand__buildQuery (this : SpdrQueryBuilder) :
  _operand (_buildQuery this) = _operand this.
Proof. now rewrite _buildQuery_eq. Qed.

(** Only [operand] assigns the operand. *)
Lemma operand_call (c : Call) (this : SpdrQueryBuilder) :
  keeps_operand c = true -> _operand (call c this) = _operand this.
Proof.
  destruct c; cbn [keeps_operand call]; try discriminate; intros _;
    try reflexivity;
    try (etransitivity; [apply operand__buildQuery | reflexivity]).
  - destruct value; [reflexivity|].
    etransitivity; [apply operand__buildQuery | reflexivity].
  - etransitivity; [apply operand__buildQuery|]. now destruct type as [[]|].
  - etransitivity; [apply operand__buildQuery|]. now destruct type as [[]|].
Qed.

Lemma operand_calls (cs : list Call) :
  forall this : SpdrQueryBuilder,
    forallb keeps_operand cs = true ->
    _operand (calls cs this) = _operand this.
Proof.
  induction cs as [|c cs IH]; intros this H; [reflexivity|].
  cbn [forallb] in H. apply andb_true_iff in H. destruct H as [Hc Hcs].
  change (calls (c :: cs) this) with (calls cs (call c this)).
  now rewrite IH, operand_call.
Qed.

(** X9. Each adding method ([search], [exists], [range], [date] on a valid
    date, [order], [enablePagination], [pageIndex], [pageSize]) pushes one
    parameter at the end of the sequence of its category and leaves the two
    other sequences, the history and the operand as they were; [query] is
    then the join of the three sequences in category order. *)
Theorem add_spec (c : Call) (t : SpdrParamType) (this : SpdrQueryBuilder) :
  adds c = Some t ->
  (exists x : Param,
      sequence t (call c this) = (sequence t this ++ [x])%list)
  /\ (forall t' : SpdrParamType,
        t' <> t -> sequence t' (call c this) = sequence t' this)
  /\ history (call c this) = history this
  /\ _operand (call c this) = _operand this
  /\ query (call c this)
     = joined (_operand this)
              (_params (call c this) ++ _sortParams (call c this)
               ++ _paginationParams (call c this)).
Proof.
  intros Ha. destruct (adds_push c t Ha) as [f Hf].
  assert (Hq : query (call c this)
               = joined (_operand (call c this)) (all_params (call c this))).
  { apply query_rebuilt. rewrite Hf.
    destruct t; apply rebuilt__buildQuery. }
  assert (Ho : _operand (call c this) = _operand this)
    by (rewrite Hf; destruct t;
        unfold _addParam, _addSortParam, _addPaginationParam;
        now rewrite _buildQuery_eq).
  rewrite Hq, Ho. clear Hq Ho. rewrite Hf.
  split; [|split; [|split; [|split]]]; try reflexivity.
  - exists (f (_operand this)).
    destruct t; unfold _addParam, _addSortParam, _addPaginationParam;
      now rewrite _buildQuery_eq.
  - intros t' Hne.
    destruct t, t'; try congruence;
      unfold _addParam, _addSortParam, _addPaginationParam;
      now rewrite _buildQuery_eq.
  - destruct t; unfold _addParam, _addSortParam, _addPaginationParam;
      now rewrite _buildQuery_eq.
Qed.

Lemma add_spec_witness :
  (exists x : Param,
      sequence sort (call (OrderCall "name" SpdrParam.asc) Examples.paged)
      = (sequence sort Examples.paged ++ [x])%list)
  /\ (forall t' : SpdrParamType,
        t' <> sort ->
        sequence t' (call (OrderCall "name" SpdrParam.asc) Examples.paged)
        = sequence t' Examples.paged)
  /\ history (call (OrderCall "name" SpdrParam.asc) Examples.paged)
     = history Examples.paged
  /\ _operand (call (OrderCall "name" SpdrParam.asc) Examples.paged)
     = _operand Examples.paged
  /\ query (call (OrderCall "name" SpdrParam.asc) Examples.paged)
     = joined (_operand Examples.paged)
              (_params (call (OrderCall "name" SpdrParam.asc) Examples.paged)
               ++ _sortParams
                    (call (OrderCall "name" SpdrParam.asc) Examples.paged)
               ++ _paginationParams
                    (call (OrderCall "name" SpdrParam.asc) Examples.paged)).
Proof.
  apply (add_spec (OrderCall "name" SpdrParam.asc) sort Examples.paged).
  reflexivity.
Defined.

(** X10. Two adding calls of different categories commute: the builder,
    and so the query, does not depend on which of them came first. *)
Theorem add_comm (c c' : Call) (t t' : SpdrParamType)
        (this : SpdrQueryBuilder) :
  adds c = Some t -> adds c' = Some t' -> t <> t' ->
  call c (call c' this) = call c' (call c this).
Proof.
  intros Ha Ha' Hne.
  destruct (adds_push c t Ha) as [f Hf].
  destruct (adds_push c' t' Ha') as [g Hg].
  rewrite (Hg this), (Hf this), Hf, Hg.
  destruct t, t'; try congruence;
    unfold _addParam, _addSortParam, _addPaginationParam;
    rewrite !_buildQuery_eq; reflexivity.
Qed.

Lemma add_comm_witness :
  call (PageIndex 2%float None) (call (Exists "a" None) (constructor None))
  = call (Exists "a" None) (call (PageIndex 2%float None) (constructor None)).
Proof.
  apply (add_comm (PageIndex 2%float None) (Exists "a" None) pagination param
                  (constructor None)).
  - reflexivity.
  - reflexivity.
  - discriminate.
Defined.

(** X11. On a builder on which [operand] is never called, [query] is at
    every moment the tokens of the three sequences, in category order,
    joined by the operand given to the constructor (["&"] by default). *)
Theorem query_without_operand (o : option string) (cs : list Call) :
  forallb keeps_operand cs = true ->
  _operand (calls cs (constructor o))
  = match o with Some op => op | None => "&" end
  /\ query (calls cs (constructor o))
     = joined (match o with Some op => op | None => "&" end)
              (_params (calls cs (constructor o))
               ++ _sortParams (calls cs (constructor o))
               ++ _paginationParams (calls cs (constructor o))).
Proof.
  intros H.
  assert (Ho : _operand (calls cs (constructor o))
               = match o with Some op => op | None => "&" end)
    by (rewrite operand_calls by exact H; reflexivity).
  split; [exact Ho|]. rewrite <- Ho.
  apply query_rebuilt, rebuilt_calls; [exact H | reflexivity].
Qed.

Lemma query_without_operand_witness :
  _operand (calls [PageIndex 2%float None; Exists "a" None; Clear (Some pagination)]
                  (constructor (Some ";")))
  = ";"
  /\ query (calls [PageIndex 2%float None; Exists "a" None; Clear (Some pagination)]
                  (constructor (Some ";")))
     = joined ";" [SpdrParam.SpdrExists "a" true].
Proof.
  apply (query_without_operand
           (Some ";")
           [PageIndex 2%float None; Exists "a" None; Clear (Some pagination)]).
  reflexivity.
Defined.

(** X12. Whatever the builder was, after a call that rebuilds (an adding
    method, [remove], [clear], a setter) and then any calls other than
    [operand], [query] is the join of the three sequences by the operand the
    builder had at that rebuild: a replaced operand takes effect with the
    next rebuild. *)
Theorem query_after_rebuild (c : Call) (cs : list Call)
        (this : SpdrQueryBuilder) :
  structural c = true ->
  forallb keeps_operand cs = true ->
  query (calls cs (call c this))
  = joined (_operand (call c this))
           (_params (calls cs (call c this))
            ++ _sortParams (calls cs (call c this))
            ++ _paginationParams (calls cs (call c this))).
Proof.
  intros Hs Hk. rewrite <- (operand_calls cs (call c this) Hk).
  apply query_rebuilt, rebuilt_calls; [exact Hk|].
  now apply structural_rebuilt.
Qed.

Lemma query_after_rebuild_witness :
  query (calls [ClearHistory] (call (Exists "b" None) Examples.one_then_operand))
  = joined "--" [SpdrParam.SpdrExists "a" true; SpdrParam.SpdrExists "b" true].
Proof.
  apply (query_after_rebuild (Exists "b" None) [ClearHistory]
                             Examples.one_then_operand).
  - reflexivity.
  - reflexivity.
Defined.

End Adding.

Section MoreTokens.

Import SpdrParam Spec.

Lemma append_not_empty (a b : string) (c : ascii) : a ++ String c b <> "".
Proof.
  intros H. apply (f_equal String.length) in H.
  rewrite length_append in H. simpl in H. lia.
Qed.

(** X13. Through the builder, [search] without its third argument bakes
    the operand of the builder into the token: on a new builder the query
    of a search for two or more values is their sub-tokens
    [<property>[]=<value>] joined by the operand of the builder, and the
    query of a search for one value is [<property>=<value>]. *)
Theorem search_default_operand (o : option string) (property v : string)
        (vs : list string) :
  Builder.query (Builder.search property (v :: vs) None (Builder.constructor o))
  = match vs with
    | [] => search_single property v
    | _ :: _ =>
        String.concat (match o with Some op => op | None => "&" end)
                      (map (search_sub property) (v :: vs))
    end.
Proof.
  unfold Builder.search, Builder._addParam. cbv zeta.
  etransitivity; [apply query_rebuilt, rebuilt__buildQuery|].
  rewrite _buildQuery_eq.
  cbn [Builder._operand Builder.with_query Builder.with_params
       Builder.constructor Builder.all_params Builder._params
       Builder._sortParams Builder._paginationParams app].
  unfold Builder.joined. cbn [map String.concat].
  destruct vs as [|w vs]; [reflexivity|].
  unfold SpdrSearch. cbv zeta.
  rewrite forEach_SpdrSearch_each;
    [|discriminate | lia | reflexivity].
  rewrite search_multi_concat by discriminate. reflexivity.
Qed.

(** X14. Every parameter the classes build has a non-empty token, whatever
    its arguments, except a Search without values, whose token is empty. *)
Theorem token_not_empty (property : string) :
  (forall o : option string, query (SpdrSearch property [] o) = "")
  /\ (forall b : bool, query (SpdrExists property b) <> "")
  /\ (forall (v : string) (vs : list string) (o : option string),
        query (SpdrSearch property (v :: vs) o) <> "")
  /\ (forall (op : RangeOperator) (v : float) (v2 : option float),
        query (SpdrRange property op v v2) <> "")
  /\ (forall (op : DateOperator) (d : Date) (x : SpdrParamInterface),
        SpdrDate property op d = Normal x -> query x <> "")
  /\ (forall d : OrderOperator, query (SpdrOrder property d) <> "")
  /\ (forall (b : option bool) (p : option string),
        query (SpdrPagination b p) <> "")
  /\ (forall (v : float) (p : option string), query (SpdrPageIdx v p) <> "")
  /\ (forall (v : float) (p : option string),
        query (SpdrPageSize v p) <> "").
Proof.
  split; [reflexivity|].
  split; [intros b; apply (append_not_empty "exists")|].
  split.
  { intros v vs o. destruct vs as [|w vs].
    - apply (append_not_empty property).
    - unfold SpdrSearch. cbv zeta.
      rewrite forEach_SpdrSearch_each; [|discriminate | lia | reflexivity].
      cbn [query set_query super append]. unfold search_multi, search_sub.
      rewrite <- append_assoc. apply append_not_empty. }
  split.
  { intros op v v2. unfold SpdrRange. cbv zeta. rewrite query_set_query.
    destruct (truthy v2 && is_between op), v2;
      apply (append_not_empty property). }
  split.
  { intros op d x H. destruct d; [discriminate H|].
    unfold SpdrDate, toISOString in H. cbv zeta in H.
    injection H as <-. apply (append_not_empty property). }
  split; [intros d; apply (append_not_empty "order")|].
  split; [intros b p; destruct p; apply append_not_empty|].
  split; intros v p; destruct p; apply append_not_empty.
Qed.

(** X15. The constructor of a Date parameter throws, a RangeError, exactly
    when the date is invalid, and [date] on the builder throws exactly
    then, with the same error; a call that throws has pushed nothing. *)
Theorem SpdrDate_throws (property : string) (op : DateOperator) (d : Date)
        (e : string) :
  (SpdrDate property op d = Throw e <-> d = InvalidDate /\ e = "RangeError")
  /\ (forall this : Builder.SpdrQueryBuilder,
        (Builder.date property op d this = Throw e
         <-> d = InvalidDate /\ e = "RangeError")
        /\ (Builder.date property op d this = Throw e ->
            Builder.call (Builder.DateCall property op d) this = this)).
Proof.
  split; [|intros this; split].
  - destruct d; split.
    + intros [= <-]. now split.
    + intros [_ ->]. reflexivity.
    + discriminate.
    + intros [H _]. discriminate H.
  - destruct d; split.
    + intros [= <-]. now split.
    + intros [_ ->]. reflexivity.
    + discriminate.
    + intros [H _]. discriminate H.
  - destruct d; [reflexivity | discriminate].
Qed.

(** The calendar fields of a time value depend on its day only. *)
Lemma calendar_Day (t t' : Z) :
  Day t = Day t' ->
  YearFromTime t = YearFromTime t'
  /\ MonthFromTime t = MonthFromTime t'
  /\ DateFromTime t = DateFromTime t'.
Proof.
  intros H.
  unfold DateFromTime, MonthFromTime, InLeapYear, DayWithinYear, YearFromTime.
  rewrite H. repeat split.
Qed.

(** The first ten characters of an ISO string do not reach its time. *)
Lemma slice_iso_date (y m d : Z) (rest rest' : string) :
  slice (isoYear y ++ "-" ++ pad2 m ++ "-" ++ pad2 d ++ rest) 0 (Some 10%nat)
  = slice (isoYear y ++ "-" ++ pad2 m ++ "-" ++ pad2 d ++ rest') 0
          (Some 10%nat).
Proof.
  unfold isoYear.
  destruct ((0 <=? y)%Z && (y <=? 9999)%Z); [reflexivity|].
  destruct (y <? 0)%Z; reflexivity.
Qed.

(** X16. The token of a Date parameter discards the time of day: two valid
    dates of the same UTC day give parameters with the same token, whatever
    the year. *)
Theorem SpdrDate_same_day (property : string) (op : DateOperator)
        (t t' : Z) :
  Day t = Day t' ->
  exists q : string,
    SpdrDate property op (TimeValue t)
    = Normal (mkParam q property (DateValue (TimeValue t)) (OfDate op))
    /\ SpdrDate property op (TimeValue t')
       = Normal (mkParam q property (DateValue (TimeValue t')) (OfDate op)).
Proof.
  intros H. destruct (calendar_Day t t' H) as [Hy [Hm Hd]].
  unfold SpdrDate, toISOString. cbv zeta. rewrite Hy, Hm, Hd.
  eexists. split; [reflexivity|].
  unfold set_query, super.
  cbn [SpdrParam.property SpdrParam.value SpdrParam.operator].
  do 2 f_equal. do 4 f_equal.
  apply slice_iso_date.
Qed.

Lemma SpdrDate_same_day_witness :
  exists q : string,
    SpdrDate "createdAt" after (TimeValue 1620036000000)
    = Normal (mkParam q "createdAt" (DateValue (TimeValue 1620036000000))
                      (OfDate after))
    /\ SpdrDate "createdAt" after (TimeValue 1620000000000)
       = Normal (mkParam q "createdAt" (DateValue (TimeValue 1620000000000))
                         (OfDate after)).
Proof.
  apply (SpdrDate_same_day "createdAt" after 1620036000000 1620000000000).
  vm_compute. reflexivity.
Defined.

End MoreTokens.

(** * Properties of the compiled builder of the first version *)

Section FirstVersion.

Import Builder.

(** The loop of [build] only grows the string. *)
Lemma forEach_Lib_append (op : string) (l : list Param) :
  forall (i : Z) (this : Lib.SpdrQueryBuilder),
    forEach (fun p (_ : Z) this => Lib.append p (Some op) this) l i this
    = Lib.mkBuilder (Lib._query this ++ accumulated op l).
Proof.
  induction l as [|p l IH]; intros i this.
  - simpl. rewrite append_nil_r. now destruct this.
  - rewrite forEach_cons, IH. unfold Lib.append. cbv zeta.
    cbn [Lib._query accumulated]. now rewrite !append_assoc.
Qed.

Lemma joined_push (op : string) (x : Param) (xs : list Param) (p : Param) :
  joined op ((x :: xs) ++ [p]) = joined op (x :: xs) ++ op ++ SpdrParam.query p.
Proof.
  apply (append_inj_l op).
  rewrite <- accumulated_joined by discriminate.
  rewrite accumulated_app, accumulated_joined by discriminate.
  cbn [accumulated]. now rewrite append_nil_r, append_assoc.
Qed.

(** X17. A builder of the first version constructed from an array has as
    its query the tokens of the array joined by ["&"], the empty string for
    the empty array; constructed without argument it has the empty query. *)
Theorem Lib_constructor_query (ps : list Param) :
  Lib.query (Lib.constructor (Some ps)) = joined "&" ps
  /\ Lib.query (Lib.constructor None) = "".
Proof.
  split; [|reflexivity].
  unfold Lib.constructor, Lib.build, Lib.query. cbv zeta.
  rewrite forEach_Lib_append. cbn [Lib._query append].
  destruct ps as [|p ps]; [reflexivity|].
  rewrite accumulated_joined by discriminate. reflexivity.
Qed.

(** X18. [build] of the first version always removes one character, not
    one operand: the string becomes what it was followed by every token
    preceded by the operand, without its first character.  On a new
    builder and a non-empty array the query is therefore the join of the
    tokens preceded by the operand less its first character: the join
    itself when the operand has one character. *)
Theorem Lib_build_query (ps : list Param) (o : option string)
        (this : Lib.SpdrQueryBuilder) :
  Lib.query (Lib.build ps o this)
  = drop 1 (Lib.query this
            ++ accumulated (match o with Some op => op | None => "&" end) ps)
  /\ (forall (c : ascii) (r : string) (p : Param),
        Lib.query (Lib.build (p :: ps) (Some (String c r)) (Lib.mkBuilder ""))
        = r ++ joined (String c r) (p :: ps))
  /\ (forall (c : ascii) (p : Param),
        Lib.query (Lib.build (p :: ps) (Some (String c "")) (Lib.mkBuilder ""))
        = joined (String c "") (p :: ps)).
Proof.
  assert (H : forall qs o' b,
             Lib.query (Lib.build qs o' b)
             = drop 1 (Lib.query b
                       ++ accumulated
                            (match o' with Some op => op | None => "&" end)
                            qs)).
  { intros qs o' b. unfold Lib.build, Lib.query. cbv zeta.
    now rewrite forEach_Lib_append. }
  split; [apply H|]. split.
  - intros c r p. rewrite H. cbn [Lib.query Lib._query append].
    rewrite accumulated_joined by discriminate. reflexivity.
  - intros c p. rewrite H. cbn [Lib.query Lib._query append].
    rewrite accumulated_joined by discriminate. reflexivity.
Qed.

(** X19. [append] of the first version adds the operand and the token at
    the end and strips nothing: after a construction from a non-empty array
    the query is the join extended by the new token, but on an empty
    builder the query starts with the operand. *)
Theorem Lib_append_query (p : Param) (o : option string) :
  (forall (x : Param) (xs : list Param),
      Lib.query (Lib.append p o (Lib.constructor (Some (x :: xs))))
      = joined "&" (x :: xs)
        ++ (match o with Some op => op | None => "&" end)
        ++ SpdrParam.query p)
  /\ (forall (x : Param) (xs : list Param),
        Lib.query (Lib.append p None (Lib.constructor (Some (x :: xs))))
        = joined "&" ((x :: xs) ++ [p]))
  /\ Lib.query (Lib.append p o (Lib.constructor None))
     = (match o with Some op => op | None => "&" end) ++ SpdrParam.query p
  /\ Lib.query (Lib.append p o (Lib.constructor (Some [])))
     = (match o with Some op => op | None => "&" end) ++ SpdrParam.query p.
Proof.
  assert (H : forall x xs,
             Lib.query (Lib.append p o (Lib.constructor (Some (x :: xs))))
             = joined "&" (x :: xs)
               ++ (match o with Some op => op | None => "&" end)
               ++ SpdrParam.query p).
  { intros x xs. unfold Lib.append, Lib.query. cbv zeta. cbn [Lib._query].
    change (Lib._query (Lib.constructor (Some (x :: xs))))
      with (Lib.query (Lib.constructor (Some (x :: xs)))).
    unfold Lib.constructor, Lib.build, Lib.query. cbv zeta.
    rewrite forEach_Lib_append. cbn [Lib._query append].
    rewrite accumulated_joined by discriminate. reflexivity. }
  split; [exact H|]. split; [|split; reflexivity].
  intros x xs. rewrite joined_push.
  unfold Lib.append, Lib.query. cbv zeta. cbn [Lib._query].
  change (Lib._query (Lib.constructor (Some (x :: xs))))
    with (Lib.query (Lib.constructor (Some (x :: xs)))).
  unfold Lib.constructor, Lib.build, Lib.query. cbv zeta.
  rewrite forEach_Lib_append. cbn [Lib._query append].
  rewrite accumulated_joined by discriminate. reflexivity.
Qed.

(** X20. The two versions agree: the query of a builder of the first
    version constructed from an array is the query of a builder of the
    current version, with the default operand, whose filters are that
    array. *)
Theorem Lib_agrees (ps : list Param) :
  Lib.query (Lib.constructor (Some ps))
  = query (set_params ps (constructor None)).
Proof.
  transitivity (joined "&" ps).
  - unfold Lib.constructor, Lib.build, Lib.query. cbv zeta.
    rewrite forEach_Lib_append. cbn [Lib._query append].
    destruct ps as [|p ps]; [reflexivity|].
    rewrite accumulated_joined by discriminate. reflexivity.
  - symmetry. etransitivity.
    + apply query_rebuilt. unfold set_params. apply rebuilt__buildQuery.
    + unfold set_params. rewrite _buildQuery_eq. unfold all_params.
      cbn [_operand _params _sortParams _paginationParams with_query
           with_params constructor _DEFAULT_OPERAND].
      now rewrite app_nil_r.
Qed.

End FirstVersion.
